(** * The build helper of python-boilerplate-app, embedded in Rocq

    A shallow embedding of [build.py]: the layered configuration of
    [BuildConfig], the per-platform artifact writers ([WindowsBuilder],
    [LinuxBuilder], [MacOSBuilder]) and the orchestration of [AppBuilder].

    Python values are an inductive type, a [dict] is an insertion-ordered
    association list, and code that reads or writes files, logs, or runs an
    external process is a function in a state-and-exception monad over a
    [World].  What the script only consumes (the operating system's name, the
    JSON reader applied to a raw text, the external programs, Python's
    rendering of values that are not strings) is a field of [Host]. *)

From Stdlib Require Import String Ascii List ZArith Bool Arith Lia.
From Stdlib Require Import Floats.SpecFloat.
Import ListNotations.
Open Scope string_scope.

Set Implicit Arguments.
Set Warnings "-register-all".

(** ** Python values *)

(** The values a configuration can hold: what [json.load] returns and what
    the literals of [_default_config] build. *)
Inductive value : Type :=
| VNone
| VBool (b : bool)
| VInt (z : Z)
| VFloat (f : spec_float)
| VStr (s : string)
| VList (l : list value)
| VDict (d : list (string * value)).

(** Truth value of an object, as [if x:] and [not x] test it. *)
Definition truthy (v : value) : bool :=
  match v with
  | VNone => false
  | VBool b => b
  | VInt z => negb (z =? 0)%Z
  | VFloat (S754_zero _) => false
  | VFloat _ => true
  | VStr s => negb (s =? "")
  | VList l => negb (Nat.eqb (length l) 0)
  | VDict d => negb (Nat.eqb (length d) 0)
  end.

(** ** Dictionaries *)

Module Dict.

(** Keys in insertion order; a Python dict holds each key once
    (see [wf]). *)
Definition t : Type := list (string * value).

Definition empty : t := [].

Definition keys (d : t) : list string := map fst d.

Definition wf (d : t) : Prop := NoDup (keys d).

(** [d[k]] when present. *)
Fixpoint get (d : t) (k : string) : option value :=
  match d with
  | [] => None
  | (k', v) :: r => if k' =? k then Some v else get r k
  end.

(** [k in d] *)
Definition mem (k : string) (d : t) : bool :=
  match get d k with Some _ => true | None => false end.

(** [d.get(k, default)] *)
Definition get_default (d : t) (k : string) (default : value) : value :=
  match get d k with Some v => v | None => default end.

(** [d[k] = v]: a present key keeps its place, a new one goes last. *)
Fixpoint set (k : string) (v : value) (d : t) : t :=
  match d with
  | [] => [(k, v)]
  | (k', v') :: r => if k' =? k then (k', v) :: r else (k', v') :: set k v r
  end.

(** [d.update(e)] *)
Definition update (d e : t) : t :=
  fold_left (fun acc kv => set (fst kv) (snd kv) acc) e d.

(** The display [{**a, **b}]: a new dict filled from [a], then from [b]. *)
Definition merge (a b : t) : t := update (update empty a) b.

End Dict.

(** ** String operations of [str] *)

(** [s.split(sep)] for a separator of one character. *)
Fixpoint str_split (sep : ascii) (s : string) : list string :=
  match s with
  | EmptyString => [EmptyString]
  | String c r =>
      if Ascii.eqb c sep then EmptyString :: str_split sep r
      else match str_split sep r with
           | [] => [String c EmptyString]
           | x :: xs => String c x :: xs
           end
  end.

(** [sep.join(parts)] *)
Definition str_join (sep : string) (parts : list string) : string :=
  String.concat sep parts.

(** [sub in s] *)
Fixpoint str_contains (sub s : string) : bool :=
  if prefix sub s then true
  else match s with
       | EmptyString => false
       | String _ r => str_contains sub r
       end.

(** [s.startswith(p)] and [s.endswith("/")] *)
Definition str_startswith (p s : string) : bool := prefix p s.

Fixpoint str_last (s : string) : option ascii :=
  match s with
  | EmptyString => None
  | String c EmptyString => Some c
  | String _ r => str_last r
  end.

Definition ends_with_slash (s : string) : bool :=
  match str_last s with
  | Some c => Ascii.eqb c "/"
  | None => false
  end.

(** The line boundaries of [str.splitlines] among the characters below 256:
    LF, CR, VT, FF, FS, GS, RS and NEL (CR LF counts once). *)
Definition is_linebreak (c : ascii) : bool :=
  let n := nat_of_ascii c in
  (n =? 10)%nat || (n =? 13)%nat || (n =? 11)%nat || (n =? 12)%nat ||
  (n =? 28)%nat || (n =? 29)%nat || (n =? 30)%nat || (n =? 133)%nat.

(** [splitlines_from cur s]: the lines of [s], the first of them prefixed by
    the characters already read, [cur] (kept reversed). *)
Fixpoint splitlines_from (cur : list ascii) (s : string) : list string :=
  match s with
  | EmptyString =>
      match cur with
      | [] => []
      | _ => [string_of_list_ascii (rev cur)]
      end
  | String c r =>
      if is_linebreak c then
        string_of_list_ascii (rev cur) ::
        match r with
        | String c' r' =>
            if ((nat_of_ascii c =? 13)%nat && (nat_of_ascii c' =? 10)%nat)%bool
            then splitlines_from [] r'
            else splitlines_from [] r
        | EmptyString => []
        end
      else splitlines_from (c :: cur) r
  end.

(** [s.splitlines()] *)
Definition str_splitlines (s : string) : list string := splitlines_from [] s.

(** ** Exceptions, the world and the host *)

Inductive exn : Type :=
| KeyError (key : string)
| TypeError
| AttributeError
| ValueError
| JSONDecodeError
| FileNotFoundError
| FileExistsError
| IsADirectoryError
| PermissionError
| CalledProcessError (cmd : list string) (returncode : Z).

Inductive result (A : Type) : Type :=
| Ok (a : A)
| Raise (e : exn).
Arguments Ok {A} a.
Arguments Raise {A} e.

(** What a file holds.  [Json doc] is a text that [json.load] reads as [doc],
    which is what [json.dump doc] writes; [Text s] is any other text, read
    through the host's JSON reader. *)
Inductive content : Type :=
| Text (s : string)
| Json (doc : value).

Inductive node : Type :=
| Directory
| File (c : content).

(** Paths are compared as written; the latest entry for a path counts. *)
Definition FS : Type := list (string * node).

Fixpoint fs_lookup (fs : FS) (path : string) : option node :=
  match fs with
  | [] => None
  | (p, n) :: r => if p =? path then Some n else fs_lookup r path
  end.

Inductive level : Type := INFO | WARNING | ERROR.

Record World : Type := mkWorld {
  fs : FS;
  log : list (level * string)
}.

(** The outcome of starting an external program: it ran and exited, or it
    could not be started (no such program, or no right to run it). *)
Inductive process : Type :=
| Exited (returncode : Z) (stdout : string)
| NotStarted (denied : bool).

Record Host : Type := mkHost {
  (** [sys.platform] *)
  sys_platform : string;
  (** [json.load] on a raw text; [None] when it is not well-formed *)
  json_loads : string -> option value;
  (** an external command run on the file system: its outcome and the file
      system it leaves *)
  spawn : list string -> FS -> process * FS;
  (** [repr] of a value that is not a string *)
  py_repr : value -> string;
  (** [str] of an exception *)
  exn_str : exn -> string
}.

(** [str(v)], as an f-string field renders it. *)
Definition py_str (h : Host) (v : value) : string :=
  match v with
  | VStr s => s
  | _ => py_repr h v
  end.

(** ** The monad of the script: state [World], exceptions [exn] *)

Definition M (A : Type) : Type := World -> result A * World.

Definition ret {A} (a : A) : M A := fun w => (Ok a, w).

Definition raise {A} (e : exn) : M A := fun w => (Raise e, w).

Definition bind {A B} (m : M A) (k : A -> M B) : M B :=
  fun w =>
    match m w with
    | (Ok a, w') => k a w'
    | (Raise e, w') => (Raise e, w')
    end.

Notation "x <- m ;; k" := (bind m (fun x => k))
  (at level 61, m at next level, right associativity).
Notation "m ;;; k" := (bind m (fun _ => k))
  (at level 61, right associativity).

(** [try: body  except subprocess.CalledProcessError as e: handler] *)
Definition try_except_CalledProcessError {A}
    (body : M A) (handler : exn -> M A) : M A :=
  fun w =>
    match body w with
    | (Raise (CalledProcessError c rc), w') => handler (CalledProcessError c rc) w'
    | r => r
    end.

(** Lifting of a pure step that may raise. *)
Definition lift {A} (r : result A) : M A := fun w => (r, w).

(** [logger.info], [logger.warning], [logger.error] *)
Definition logger (lv : level) (msg : string) : M unit :=
  fun w => (Ok tt, mkWorld (fs w) (log w ++ [(lv, msg)])).

(** *** Files *)

(** [os.path.exists(path)] *)
Definition os_path_exists (path : string) : M bool :=
  fun w => (Ok (match fs_lookup (fs w) path with Some _ => true | None => false end), w).

(** [open(path, 'r')] and reading the whole file. *)
Definition read_file (path : string) : M content :=
  fun w =>
    match fs_lookup (fs w) path with
    | None => (Raise FileNotFoundError, w)
    | Some Directory => (Raise IsADirectoryError, w)
    | Some (File c) => (Ok c, w)
    end.

(** [open(path, 'w')] and writing the whole file; the directory that is to
    hold it is taken to exist. *)
Definition write_file (path : string) (c : content) : M unit :=
  fun w =>
    match fs_lookup (fs w) path with
    | Some Directory => (Raise IsADirectoryError, w)
    | _ => (Ok tt, mkWorld ((path, File c) :: fs w) (log w))
    end.

(** [os.makedirs(path, exist_ok=True)] *)
Definition os_makedirs (path : string) : M unit :=
  fun w =>
    if path =? "" then (Raise FileNotFoundError, w)
    else match fs_lookup (fs w) path with
         | Some Directory => (Ok tt, w)
         | Some (File _) => (Raise FileExistsError, w)
         | None => (Ok tt, mkWorld ((path, Directory) :: fs w) (log w))
         end.

(** The document a file's content stands for, if it is well-formed. *)
Definition parse (h : Host) (c : content) : option value :=
  match c with
  | Json doc => Some doc
  | Text s => json_loads h s
  end.

(** [json.load(f)] *)
Definition json_load (h : Host) (path : string) : M value :=
  c <- read_file path ;;
  match parse h c with
  | Some doc => ret doc
  | None => raise JSONDecodeError
  end.

(** [json.dump(v, f, indent=4)] *)
Definition json_dump (v : value) (path : string) : M unit :=
  write_file path (Json v).

(** *** Dynamic operations on values *)

(** [v[k]] on a dict *)
Definition getitem (d : Dict.t) (k : string) : result value :=
  match Dict.get d k with
  | Some v => Ok v
  | None => Raise (KeyError k)
  end.

(** [v.get(k, default)]: only a dict has the method. *)
Definition value_get (v : value) (k : string) (default : value) : result value :=
  match v with
  | VDict d => Ok (Dict.get_default d k default)
  | _ => Raise AttributeError
  end.

(** [{**a, **b}]: both must be mappings. *)
Definition dict_display (a b : value) : result Dict.t :=
  match a, b with
  | VDict da, VDict db => Ok (Dict.merge da db)
  | _, _ => Raise TypeError
  end.

(** ** PlatformConfig *)

Module PlatformConfig.

Definition get_platform (h : Host) : string :=
  if sys_platform h =? "win32" then "windows"
  else if sys_platform h =? "darwin" then "macos"
  else "linux".

Definition get_executable_extension (h : Host) : string :=
  if sys_platform h =? "win32" then ".exe" else "".

Definition get_icon_extension (h : Host) : string :=
  if sys_platform h =? "win32" then ".ico"
  else if sys_platform h =? "darwin" then ".icns"
  else ".png".

End PlatformConfig.

(** ** BuildConfig *)

Module BuildConfig.

Record t : Type := mk {
  config_file : string;
  platform : string;
  config : Dict.t
}.

Definition base_defaults (h : Host) : Dict.t :=
  [ ("app_name", VStr "YourApp");
    ("version", VStr "1.0.0");
    ("main_script", VStr "main.py");
    ("build_dir", VStr "build");
    ("dist_dir", VStr "dist");
    ("additional_data", VList []);
    ("hidden_imports", VList []);
    ("exclude_modules", VList []);
    ("icon_file", VStr ("icons/app_icon" ++ PlatformConfig.get_icon_extension h)) ].

Definition platform_configs : Dict.t :=
  [ ("windows", VDict
       [ ("console", VBool false);
         ("admin_access", VBool false);
         ("uac_admin", VBool false);
         ("version_file", VStr "version.txt") ]);
    ("macos", VDict
       [ ("bundle_identifier", VStr "com.example.yourapp");
         ("entitlements_file", VStr "entitlements.plist");
         ("info_plist", VStr "Info.plist") ]);
    ("linux", VDict
       [ ("console", VBool false);
         ("desktop_file", VStr "app.desktop");
         ("categories", VStr "Utility;") ]) ].

Definition _default_config (h : Host) (platform : string) : result Dict.t :=
  dict_display (VDict (base_defaults h))
               (Dict.get_default platform_configs platform (VDict Dict.empty)).

Definition _load_config (h : Host) (config_file platform : string) : M Dict.t :=
  present <- os_path_exists config_file ;;
  if present : bool then
    doc <- json_load h config_file ;;
    platform_config <- lift (value_get doc platform (VDict Dict.empty)) ;;
    base_config <- lift (value_get doc "base" (VDict Dict.empty)) ;;
    lift (dict_display base_config platform_config)
  else lift (_default_config h platform).

(** [BuildConfig(config_file)] *)
Definition init (h : Host) (config_file : string) : M t :=
  let platform := PlatformConfig.get_platform h in
  cfg <- _load_config h config_file platform ;;
  ret (mk config_file platform cfg).

Definition save (self : t) : M unit :=
  json_dump (VDict (config self)) (config_file self).

End BuildConfig.


(** ** Paths, processes and iteration *)

(** [os.pathsep]: [";"] on Windows, [":"] elsewhere. *)
Definition os_pathsep (h : Host) : string :=
  if sys_platform h =? "win32" then ";" else ":".

(** [os.path.join(a, b)] of [posixpath]; the script joins paths only on its
    linux and macos branches.  [a] comes from the configuration and must be
    a string. *)
Definition os_path_join (a : value) (b : string) : result string :=
  match a with
  | VStr path =>
      if str_startswith "/" b then Ok b
      else if (path =? "") || ends_with_slash path then Ok (path ++ b)
      else Ok (path ++ "/" ++ b)
  | _ => Raise TypeError
  end.

Fixpoint drop_basename (rev_path : list ascii) : list ascii :=
  match rev_path with
  | [] => []
  | c :: r => if Ascii.eqb c "/" then rev_path else drop_basename r
  end.

Fixpoint rstrip_slashes (rev_path : list ascii) : list ascii :=
  match rev_path with
  | [] => []
  | c :: r => if Ascii.eqb c "/" then rstrip_slashes r else rev_path
  end.

(** [os.path.dirname(p)] of [posixpath]: everything up to the last slash,
    without trailing slashes unless it is made of slashes only. *)
Definition os_path_dirname (p : string) : string :=
  let head := drop_basename (rev (list_ascii_of_string p)) in
  let stripped := rstrip_slashes head in
  string_of_list_ascii (rev (match stripped with [] => head | _ => stripped end)).

Fixpoint all_str (cmd : list value) : option (list string) :=
  match cmd with
  | [] => Some []
  | VStr s :: r => option_map (cons s) (all_str r)
  | _ :: _ => None
  end.

(** [subprocess.run(cmd, check=True)], returning the captured output.  An
    argument that is not a string is a [TypeError]; a non-zero exit is a
    [CalledProcessError]. *)
Definition subprocess_run (h : Host) (cmd : list value) : M string :=
  match all_str cmd with
  | None => raise TypeError
  | Some args =>
      fun w =>
        match spawn h args (fs w) with
        | (NotStarted denied, fs') =>
            (Raise (if denied then PermissionError else FileNotFoundError),
             mkWorld fs' (log w))
        | (Exited rc out, fs') =>
            if (rc =? 0)%Z then (Ok out, mkWorld fs' (log w))
            else (Raise (CalledProcessError args rc), mkWorld fs' (log w))
        end
  end.

Fixpoint chars_of (s : string) : list value :=
  match s with
  | EmptyString => []
  | String c r => VStr (String c EmptyString) :: chars_of r
  end.

(** The elements a [for] loop draws from a value. *)
Definition py_iter (v : value) : result (list value) :=
  match v with
  | VList l => Ok l
  | VStr s => Ok (chars_of s)
  | VDict d => Ok (map VStr (Dict.keys d))
  | _ => Raise TypeError
  end.

(** The target [src, dst] of a [for] loop: the element must yield exactly
    two values. *)
Definition unpack2 (v : value) : result (value * value) :=
  match py_iter v with
  | Raise e => Raise e
  | Ok [a; b] => Ok (a, b)
  | Ok _ => Raise ValueError
  end.

Fixpoint mapM {A B} (f : A -> result B) (l : list A) : result (list B) :=
  match l with
  | [] => Ok []
  | x :: r =>
      match f x with
      | Raise e => Raise e
      | Ok y => match mapM f r with
                | Raise e => Raise e
                | Ok ys => Ok (y :: ys)
                end
      end
  end.

(** ** WindowsBuilder *)

Module WindowsBuilder.

(** [while len(version_parts) < 4: version_parts.append('0')]; four rounds
    are enough, see [pad_version_spec]. *)
Fixpoint pad_loop (fuel : nat) (version_parts : list string) : list string :=
  match fuel with
  | O => version_parts
  | S fuel' =>
      if (length version_parts <? 4)%nat
      then pad_loop fuel' (version_parts ++ ["0"])
      else version_parts
  end.

Definition pad_version (version_parts : list string) : list string :=
  pad_loop 4 version_parts.

(** [config['version'].split('.')]: only [str] has the method. *)
Definition split_version (version : value) : result (list string) :=
  match version with
  | VStr s => Ok (str_split "." s)
  | _ => Raise AttributeError
  end.

(** Lines 119 to 123: the text put in [filevers] and [prodvers]. *)
Definition version_tuple (config : Dict.t) : result string :=
  match getitem config "version" with
  | Raise e => Raise e
  | Ok version =>
      match split_version version with
      | Raise e => Raise e
      | Ok parts => Ok (str_join "," (pad_version parts))
      end
  end.

Definition render_version_info (h : Host) (version_tuple : string)
    (company_name description version app_name copyright_info trademark
     product_name : value) : string :=
"
VSVersionInfo(
  ffi=FixedFileInfo(
    filevers=(" ++ version_tuple ++ "),
    prodvers=(" ++ version_tuple ++ "),
    mask=0x3f,
    flags=0x0,
    OS=0x40004,
    fileType=0x1,
    subtype=0x0,
    date=(0, 0)
  ),
  kids=[
    StringFileInfo([
      StringTable(
        u'040904B0',
        [StringStruct(u'CompanyName', u'" ++ py_str h company_name ++ "'),
         StringStruct(u'FileDescription', u'" ++ py_str h description ++ "'),
         StringStruct(u'FileVersion', u'" ++ py_str h version ++ "'),
         StringStruct(u'InternalName', u'" ++ py_str h app_name ++ "'),
         StringStruct(u'LegalCopyright', u'" ++ py_str h copyright_info ++ "'),
         StringStruct(u'LegalTrademarks', u'" ++ py_str h trademark ++ "'),
         StringStruct(u'OriginalFilename', u'" ++ py_str h app_name ++ ".exe'),
         StringStruct(u'ProductName', u'" ++ py_str h product_name ++ "'),
         StringStruct(u'ProductVersion', u'" ++ py_str h version ++ "')]
      )
    ]),
    VarFileInfo([VarStruct(u'Translation', [1033, 1200])])
  ]
)
".

Definition create_version_info (h : Host) (config : Dict.t) : M string :=
  version_tuple <- lift (version_tuple config) ;;
  let company := Dict.get_default config "company" (VDict Dict.empty) in
  company_name <- lift (value_get company "name" (VStr "Unknown Company")) ;;
  copyright_info <- lift (value_get company "copyright"
                            (VStr ("Copyright (c) " ++ py_str h company_name))) ;;
  app_name <- lift (getitem config "app_name") ;;
  description <- lift (value_get company "description" app_name) ;;
  product_name <- lift (value_get company "product_name" app_name) ;;
  trademark <- lift (value_get company "trademark" company_name) ;;
  version <- lift (getitem config "version") ;;
  let version_info :=
    render_version_info h version_tuple company_name description version
      app_name copyright_info trademark product_name in
  write_file "version_info.txt" (Text version_info) ;;;
  ret "version_info.txt".

End WindowsBuilder.

(** ** LinuxBuilder *)

Module LinuxBuilder.

Definition newline : string := String (ascii_of_nat 10) EmptyString.

Definition create_desktop_file (h : Host) (config : Dict.t) : M string :=
  app_name <- lift (getitem config "app_name") ;;
  let categories := Dict.get_default config "categories" (VStr "Utility;") in
  version <- lift (getitem config "version") ;;
  let desktop_content :=
    "[Desktop Entry]" ++ newline ++
    "Name=" ++ py_str h app_name ++ newline ++
    "Exec=" ++ py_str h app_name ++ newline ++
    "Icon=" ++ py_str h app_name ++ newline ++
    "Type=Application" ++ newline ++
    "Categories=" ++ py_str h categories ++ newline ++
    "Version=" ++ py_str h version ++ newline in
  build_dir <- lift (getitem config "build_dir") ;;
  desktop_file <- lift (os_path_join build_dir (py_str h app_name ++ ".desktop")) ;;
  os_makedirs (os_path_dirname desktop_file) ;;;
  write_file desktop_file (Text desktop_content) ;;;
  ret desktop_file.

End LinuxBuilder.

(** ** MacOSBuilder *)

Module MacOSBuilder.

(** The character class [[A-F0-9]]. *)
Definition is_hex_upper (c : ascii) : bool :=
  let n := nat_of_ascii c in
  ((48 <=? n)%nat && (n <=? 57)%nat) || ((65 <=? n)%nat && (n <=? 70)%nat).

(** The first [n] characters of [s] when all of them are in the class. *)
Fixpoint take_hex (n : nat) (s : string) : option string :=
  match n with
  | O => Some EmptyString
  | S n' =>
      match s with
      | EmptyString => None
      | String c r =>
          if is_hex_upper c then option_map (String c) (take_hex n' r)
          else None
      end
  end.

(** [re.search(r'([A-F0-9]{40})', line)] and its group 1: the leftmost run
    of forty class characters. *)
Fixpoint re_search_hex40 (line : string) : option string :=
  match take_hex 40 line with
  | Some m => Some m
  | None =>
      match line with
      | EmptyString => None
      | String _ r => re_search_hex40 r
      end
  end.

Definition initial_identities : Dict.t :=
  [ ("Developer ID Application", VNone);
    ("Apple Development", VNone);
    ("3rd Party Mac Developer Application", VNone);
    ("Mac Developer", VNone) ].

(** The inner loop over [identities.keys()] for one line; [break] ends it
    at the first label that is in the line when the line has an identifier. *)
Fixpoint scan_line (line : string) (labels : list string)
    (identities : Dict.t) : Dict.t :=
  match labels with
  | [] => identities
  | identity :: rest =>
      if str_contains identity line then
        match re_search_hex40 line with
        | Some m => Dict.set identity (VStr m) identities
        | None => scan_line line rest identities
        end
      else scan_line line rest identities
  end.

(** The outer loop over the lines. *)
Definition scan_lines (lines : list string) (identities : Dict.t) : Dict.t :=
  fold_left (fun ids line => scan_line line (Dict.keys ids) ids) lines identities.

(** The loop over [identities.items()]: the first entry whose value is
    true. *)
Fixpoint first_identity (items : Dict.t) : option (string * value) :=
  match items with
  | [] => None
  | (identity, hash_value) :: r =>
      if truthy hash_value then Some (identity, hash_value)
      else first_identity r
  end.

Definition security_cmd : list value :=
  [VStr "security"; VStr "find-identity"; VStr "-v"; VStr "-p"; VStr "codesigning"].

Definition get_signing_identity (h : Host) : M value :=
  try_except_CalledProcessError
    (stdout <- subprocess_run h security_cmd ;;
     let identities := scan_lines (str_splitlines stdout) initial_identities in
     match first_identity identities with
     | Some (identity, hash_value) =>
         logger INFO ("Using signing identity: " ++ identity) ;;;
         ret hash_value
     | None =>
         logger WARNING "No preferred signing identity found. Using ad-hoc signing." ;;;
         ret (VStr "-")
     end)
    (fun e =>
       logger ERROR ("Error checking signing identities: " ++ exn_str h e) ;;;
       ret (VStr "-")).

Definition sign_app (h : Host) (app_path : string) (config : Dict.t) : M bool :=
  try_except_CalledProcessError
    (signing_identity <- get_signing_identity h ;;
     entitlements_file <- lift (getitem config "entitlements_file") ;;
     let cmd :=
       [VStr "codesign"; VStr "--force"; VStr "--deep"; VStr "--timestamp";
        VStr "--options"; VStr "runtime";
        VStr "--entitlements"; entitlements_file;
        VStr "-s"; signing_identity;
        VStr app_path] in
     subprocess_run h cmd ;;;
     logger INFO "Application signed successfully!" ;;;
     subprocess_run h
       [VStr "codesign"; VStr "--verify"; VStr "--deep"; VStr "--strict";
        VStr app_path] ;;;
     ret true)
    (fun e =>
       logger ERROR ("Error during code signing: " ++ exn_str h e) ;;;
       ret false).

End MacOSBuilder.

(** ** AppBuilder *)

Module AppBuilder.

Local Open Scope list_scope.

Record t : Type := mk {
  config : BuildConfig.t;
  platform : string
}.

(** The keys of [self.platform_builders]. *)
Definition platform_builders : list string := ["windows"; "linux"; "macos"].

Definition init (h : Host) (config : BuildConfig.t) : t :=
  mk config (PlatformConfig.get_platform h).

Definition prepare_platform_specific (h : Host) (self : t) : M (list value) :=
  let cfg := BuildConfig.config (config self) in
  if negb (existsb (String.eqb (platform self)) platform_builders) then ret []
  else if platform self =? "windows" then
    version_file <- WindowsBuilder.create_version_info h cfg ;;
    let extra_args := [VStr "--version-file"; VStr version_file] in
    if truthy (Dict.get_default cfg "uac_admin" VNone)
    then ret (extra_args ++ [VStr "--uac-admin"])
    else ret extra_args
  else if platform self =? "linux" then
    LinuxBuilder.create_desktop_file h cfg ;;;
    ret []
  else ret [].

(** One round of the loop over the hidden imports. *)
Definition hidden_import_args (imp : value) : list value :=
  [VStr "--hidden-import"; imp].

(** One round of the loop over the data files. *)
Definition add_data_args (h : Host) (item : value) : result (list value) :=
  match unpack2 item with
  | Raise e => Raise e
  | Ok (src, dst) =>
      Ok [VStr "--add-data"; VStr (py_str h src ++ os_pathsep h ++ py_str h dst)%string]
  end.

(** Lines 298 to 330 of [build]: the command handed to the bundler. *)
Definition build_command (h : Host) (self : t) : M (list value) :=
  let cfg := BuildConfig.config (config self) in
  app_name <- lift (getitem cfg "app_name") ;;
  let cmd := [VStr "pyinstaller"; VStr "--name"; app_name;
              VStr "--noconfirm"; VStr "--clean"] in
  let cmd :=
    if (platform self =? "windows") || (platform self =? "macos") then
      if negb (truthy (Dict.get_default cfg "console" (VBool false)))
      then cmd ++ [VStr "--windowed"]
      else cmd
    else cmd in
  let cmd :=
    match Dict.get cfg "icon_file" with
    | Some icon_file => cmd ++ [VStr "--icon"; icon_file]
    | None => cmd
    end in
  extra_args <- prepare_platform_specific h self ;;
  let cmd := cmd ++ extra_args in
  let cmd :=
    if platform self =? "macos" then
      match Dict.get cfg "bundle_identifier" with
      | Some bundle_identifier =>
          cmd ++ [VStr "--osx-bundle-identifier"; bundle_identifier]
      | None => cmd
      end
    else cmd in
  hidden_imports <- lift (getitem cfg "hidden_imports") ;;
  imps <- lift (py_iter hidden_imports) ;;
  let cmd := cmd ++ flat_map hidden_import_args imps in
  additional_data <- lift (getitem cfg "additional_data") ;;
  items <- lift (py_iter additional_data) ;;
  data_args <- lift (mapM (add_data_args h) items) ;;
  let cmd := cmd ++ concat data_args in
  main_script <- lift (getitem cfg "main_script") ;;
  ret (cmd ++ [main_script]).

(** Lines 336 to 342 of [build]: the step after the bundler, on macos. *)
Definition post_build (h : Host) (self : t) : M unit :=
  let cfg := BuildConfig.config (config self) in
  if platform self =? "macos" then
    dist_dir <- lift (getitem cfg "dist_dir") ;;
    app_name <- lift (getitem cfg "app_name") ;;
    app_path <- lift (os_path_join dist_dir (py_str h app_name ++ ".app")%string) ;;
    MacOSBuilder.sign_app h app_path cfg ;;;
    ret tt
  else ret tt.

Definition build (h : Host) (self : t) : M bool :=
  try_except_CalledProcessError
    (cmd <- build_command h self ;;
     subprocess_run h cmd ;;;
     logger INFO "Application built successfully!" ;;;
     post_build h self ;;;
     ret true)
    (fun e =>
       logger ERROR ("Error building application: " ++ exn_str h e)%string ;;;
       ret false).

End AppBuilder.

(** ** Notions used in the statements *)

(** [path] holds a well-formed document [doc]. *)
Definition holds_document (h : Host) (w : World) (path : string) (doc : value) : Prop :=
  exists c, fs_lookup (fs w) path = Some (File c) /\ parse h c = Some doc.

(** What [_load_config] makes of a document. *)
Definition resolve_document (doc : value) (platform : string) : result Dict.t :=
  match value_get doc platform (VDict Dict.empty) with
  | Raise e => Raise e
  | Ok platform_config =>
      match value_get doc "base" (VDict Dict.empty) with
      | Raise e => Raise e
      | Ok base_config => dict_display base_config platform_config
      end
  end.

(** The labels of the identity classes, in the order of their priority. *)
Definition identity_labels : list string :=
  Dict.keys MacOSBuilder.initial_identities.

(** The arguments of the identity listing. *)
Definition security_args : list string :=
  ["security"; "find-identity"; "-v"; "-p"; "codesigning"].

(** A line matches a class when it contains the label of the class and a
    run of forty characters of [[A-F0-9]]. *)
Definition class_match (label line : string) : bool :=
  str_contains label line &&
  match MacOSBuilder.re_search_hex40 line with Some _ => true | None => false end.

(** A forty-character upper-case hexadecimal identifier. *)
Definition is_identifier (m : string) : Prop :=
  String.length m = 40 /\
  forallb MacOSBuilder.is_hex_upper (list_ascii_of_string m) = true.

(** Every value in the identities is [None] or the identifier of a listed
    line that contains the label it is stored under. *)
Definition recorded (all_lines : list string) (ids : Dict.t) : Prop :=
  forall k v, In (k, v) ids ->
    v = VNone \/
    exists line m,
      In line all_lines /\ str_contains k line = true /\
      MacOSBuilder.re_search_hex40 line = Some m /\ v = VStr m.

(** The token of the windowed mode. *)
Definition windowed_flag : value := VStr "--windowed".

Definition is_windowed_flag (v : value) : bool :=
  match v with
  | VStr s => s =? "--windowed"
  | _ => false
  end.

(** No value of the configuration is the string "--windowed" or a
    collection with that string among its elements. *)
Definition free_of_windowed (cfg : Dict.t) : bool :=
  forallb
    (fun kv =>
       negb (is_windowed_flag (snd kv)) &&
       match py_iter (snd kv) with
       | Ok l => forallb (fun x => negb (is_windowed_flag x)) l
       | Raise _ => true
       end)
    cfg.

(** The test of lines 306 and 307 of [build]. *)
Definition wants_windowed (self : AppBuilder.t) : bool :=
  ((AppBuilder.platform self =? "windows") || (AppBuilder.platform self =? "macos")) &&
  negb (truthy (Dict.get_default (BuildConfig.config (AppBuilder.config self))
                  "console" (VBool false))).

(** [c] occurs in [s]. *)
Fixpoint has_char (c : ascii) (s : string) : bool :=
  match s with
  | EmptyString => false
  | String c' r => Ascii.eqb c' c || has_char c r
  end.

(** The exceptions that the [except] clauses of the script catch. *)
Definition is_called_process_error (e : exn) : bool :=
  match e with
  | CalledProcessError _ _ => true
  | _ => false
  end.

(** A step that never raises [CalledProcessError]. *)
Definition result_safe {A} (r : result A) : Prop :=
  forall e, r = Raise e -> is_called_process_error e = false.

(** A computation that never raises [CalledProcessError]. *)
Definition safe {A} (m : M A) : Prop :=
  forall w e w', m w = (Raise e, w') -> is_called_process_error e = false.

(** ** Sample hosts and worlds

    Concrete hosts on which the theorems below are exercised. *)

(** A host where every external program exits with status 0 and prints
    nothing, and whose JSON reader rejects every raw text. *)
Definition quiet_host (sys_platform : string) : Host :=
  mkHost sys_platform
         (fun _ => None)
         (fun _ fs => (Exited 0 "", fs))
         (fun _ => "<object>")
         (fun _ => "<exception>").

Definition empty_world : World := mkWorld [] [].

(** A layered document with a [base] and a [linux] section. *)
Definition sample_document : value :=
  VDict [ ("base", VDict [ ("app_name", VStr "Demo");
                           ("version", VStr "1.2");
                           ("console", VBool true) ]);
          ("linux", VDict [ ("console", VBool false);
                            ("categories", VStr "Game;") ]);
          ("windows", VDict [ ("uac_admin", VBool true) ]) ].

Definition sample_world : World :=
  mkWorld [ ("build_config.json", File (Json sample_document));
            ("broken.json", File (Text "{ not json")) ] [].

Definition line_feed : string := String (ascii_of_nat 10) EmptyString.

(** A listing with an Apple Development and a Mac Developer identity. *)
Definition sample_listing : string :=
  "  1) 0123456789ABCDEF0123456789ABCDEF01234567 Apple Development: dev@example.org" ++
  line_feed ++
  "  2) 89ABCDEF0123456789ABCDEF0123456789ABCDEF Mac Developer: dev@example.org" ++
  line_feed ++
  "     2 valid identities found" ++ line_feed.

(** A macOS host: the bundler succeeds, the identity listing prints
    [sample_listing], and [codesign] exits with status 1. *)
Definition signing_host : Host :=
  mkHost "darwin"
         (fun _ => None)
         (fun args fs =>
            match args with
            | "security" :: _ => (Exited 0 sample_listing, fs)
            | "codesign" :: _ => (Exited 1 "", fs)
            | _ => (Exited 0 "", fs)
            end)
         (fun _ => "<object>")
         (fun _ => "<exception>").

(** The built-in defaults of a host. *)
Definition default_config (h : Host) : Dict.t :=
  match BuildConfig._default_config h (PlatformConfig.get_platform h) with
  | Ok cfg => cfg
  | Raise _ => Dict.empty
  end.

(** The builder of a host over a given configuration. *)
Definition builder_of (h : Host) (cfg : Dict.t) : AppBuilder.t :=
  AppBuilder.init h
    (BuildConfig.mk "build_config.json" (PlatformConfig.get_platform h) cfg).

(** ** The demonstration application

    The title that [TestApp.setup_window] of [main.py] gives its window
    (lines 29 to 39); the widgets themselves belong to the GUI toolkit. *)

Module TestApp.

(** [v[k]] for a string key [k]: a dict looks the key up, every other value
    raises [TypeError]. *)
Definition subscript (v : value) (k : string) : result value :=
  match v with
  | VDict d => getitem d k
  | _ => Raise TypeError
  end.

(** The body of the [try]: the two names read from [build_config.json]. *)
Definition read_names (h : Host) : M (value * value) :=
  config <- json_load h "build_config.json" ;;
  base <- lift (subscript config "base") ;;
  app_name <- lift (subscript base "app_name") ;;
  base' <- lift (subscript config "base") ;;
  company_section <- lift (subscript base' "company") ;;
  company <- lift (subscript company_section "name") ;;
  ret (app_name, company).

(** [try: ... except: ...] with a bare [except], which catches every
    exception, followed by the f-string of the title. *)
Definition window_title (h : Host) : M string :=
  fun w =>
    match read_names h w with
    | (Ok (app_name, company), w') =>
        (Ok (py_str h app_name ++ " by " ++ py_str h company), w')
    | (Raise _, w') =>
        (Ok (py_str h (VStr "Test App") ++ " by " ++ py_str h (VStr "Test Company")), w')
    end.

End TestApp.

(** ** Further notions used in the statements *)

(** [s] with every [a] replaced by [b]. *)
Fixpoint replace_char (a b : ascii) (s : string) : string :=
  match s with
  | EmptyString => EmptyString
  | String c r => String (if Ascii.eqb c a then b else c) (replace_char a b r)
  end.

(** Two worlds have the same files, path by path. *)
Definition same_files (w w' : World) : Prop :=
  forall path, fs_lookup (fs w') path = fs_lookup (fs w) path.

(** Every external program of the host can be started. *)
Definition programs_start (h : Host) : Prop :=
  forall args files, exists rc out files', spawn h args files = (Exited rc out, files').

(** A macOS host on which the identity listing cannot be started. *)
Definition no_security_host : Host :=
  mkHost "darwin"
         (fun _ => None)
         (fun args fs =>
            match args with
            | "security" :: _ => (NotStarted false, fs)
            | _ => (Exited 0 "", fs)
            end)
         (fun _ => "<object>")
         (fun _ => "<exception>").

(** A listing with two Apple Development identities. *)
Definition double_listing : string :=
  "  1) 0123456789ABCDEF0123456789ABCDEF01234567 Apple Development: one@example.org" ++
  line_feed ++
  "  2) 89ABCDEF0123456789ABCDEF0123456789ABCDEF Apple Development: two@example.org" ++
  line_feed ++
  "     2 valid identities found" ++ line_feed.

(** A macOS host whose programs all exit with status 0 and whose identity
    listing prints [double_listing]. *)
Definition double_host : Host :=
  mkHost "darwin"
         (fun _ => None)
         (fun args fs =>
            match args with
            | "security" :: _ => (Exited 0 double_listing, fs)
            | _ => (Exited 0 "", fs)
            end)
         (fun _ => "<object>")
         (fun _ => "<exception>").

(** * Properties *)

(** ** Dictionaries *)

Lemma dict_get_set_same (k : string) (v : value) (d : Dict.t) :
  Dict.get (Dict.set k v d) k = Some v.
Proof.
  induction d as [|[k' v'] r IH]; simpl.
  - now rewrite String.eqb_refl.
  - destruct (k' =? k) eqn:E; simpl; rewrite E; auto.
Qed.

Lemma dict_get_set_other (k k' : string) (v : value) (d : Dict.t) :
  k <> k' -> Dict.get (Dict.set k v d) k' = Dict.get d k'.
Proof.
  intros Hne. induction d as [|[k0 v0] r IH]; simpl.
  - destruct (k =? k') eqn:E; auto.
    apply String.eqb_eq in E. contradiction.
  - destruct (k0 =? k) eqn:E; simpl.
    + apply String.eqb_eq in E. subst k0.
      destruct (k =? k') eqn:E'; auto.
      apply String.eqb_eq in E'. contradiction.
    + now rewrite IH.
Qed.

Lemma dict_get_none (d : Dict.t) (k : string) :
  ~ In k (Dict.keys d) -> Dict.get d k = None.
Proof.
  induction d as [|[k' v'] r IH]; simpl; intros Hn; auto.
  destruct (k' =? k) eqn:E.
  - apply String.eqb_eq in E. tauto.
  - apply IH. tauto.
Qed.

Lemma dict_get_some_in (d : Dict.t) (k : string) (v : value) :
  Dict.get d k = Some v -> In k (Dict.keys d).
Proof.
  induction d as [|[k' v'] r IH]; simpl; intros H; [discriminate|].
  destruct (k' =? k) eqn:E.
  - apply String.eqb_eq in E. auto.
  - auto.
Qed.

Lemma dict_in_keys_get (d : Dict.t) (k : string) :
  In k (Dict.keys d) -> exists v, Dict.get d k = Some v.
Proof.
  induction d as [|[k' v'] r IH]; simpl; intros H; [contradiction|].
  destruct (k' =? k) eqn:E; eauto.
  destruct H as [H|H]; auto.
  subst. now rewrite String.eqb_refl in E.
Qed.

(** [d.update(e)] looks a key up in [e] first. *)
Lemma dict_get_update (e : Dict.t) :
  Dict.wf e ->
  forall (d : Dict.t) (k : string),
    Dict.get (Dict.update d e) k =
    match Dict.get e k with Some v => Some v | None => Dict.get d k end.
Proof.
  unfold Dict.wf, Dict.update.
  induction e as [|[k0 v0] r IH]; simpl; intros Hnd d k; auto.
  inversion Hnd as [|? ? Hnotin Hnd']; subst.
  rewrite IH by assumption.
  destruct (k0 =? k) eqn:E.
  - apply String.eqb_eq in E. subst k0.
    rewrite dict_get_none by assumption.
    apply dict_get_set_same.
  - destruct (Dict.get r k); auto.
    apply dict_get_set_other.
    intros ->. now rewrite String.eqb_refl in E.
Qed.

(** The display [{**a, **b}] is a shallow overlay: [b] wins. *)
Lemma dict_get_merge (a b : Dict.t) (k : string) :
  Dict.wf a -> Dict.wf b ->
  Dict.get (Dict.merge a b) k =
  match Dict.get b k with Some v => Some v | None => Dict.get a k end.
Proof.
  intros Ha Hb. unfold Dict.merge.
  rewrite dict_get_update by assumption.
  rewrite dict_get_update by assumption.
  simpl. destruct (Dict.get b k); auto. now destruct (Dict.get a k).
Qed.

(** ** Reading the configuration *)

Lemma load_config_document (h : Host) (w : World) (path platform : string) (doc : value) :
  holds_document h w path doc ->
  BuildConfig._load_config h path platform w = (resolve_document doc platform, w).
Proof.
  intros (c & Hfs & Hp).
  unfold BuildConfig._load_config, resolve_document, bind, os_path_exists,
    json_load, read_file, bind, lift, ret.
  repeat (rewrite Hfs; simpl). rewrite Hp.
  destruct (value_get doc platform (VDict Dict.empty)); auto.
  destruct (value_get doc "base" (VDict Dict.empty)); auto.
Qed.

Lemma load_config_absent (h : Host) (w : World) (path platform : string) :
  fs_lookup (fs w) path = None ->
  BuildConfig._load_config h path platform w =
  (BuildConfig._default_config h platform, w).
Proof.
  intros Hfs.
  unfold BuildConfig._load_config, bind, os_path_exists, lift.
  now rewrite Hfs.
Qed.

Lemma init_load (h : Host) (w : World) (path : string) :
  BuildConfig.init h path w =
  match BuildConfig._load_config h path (PlatformConfig.get_platform h) w with
  | (Ok cfg, w') => (Ok (BuildConfig.mk path (PlatformConfig.get_platform h) cfg), w')
  | (Raise e, w') => (Raise e, w')
  end.
Proof.
  unfold BuildConfig.init, bind, ret.
  destruct (BuildConfig._load_config h path (PlatformConfig.get_platform h) w) as [[cfg|e] w']; auto.
Qed.

Lemma init_document (h : Host) (w : World) (path : string) (doc : value) :
  holds_document h w path doc ->
  BuildConfig.init h path w =
  match resolve_document doc (PlatformConfig.get_platform h) with
  | Ok cfg => (Ok (BuildConfig.mk path (PlatformConfig.get_platform h) cfg), w)
  | Raise e => (Raise e, w)
  end.
Proof.
  intros Hd. rewrite init_load.
  rewrite (load_config_document _ Hd).
  now destruct (resolve_document doc (PlatformConfig.get_platform h)).
Qed.

(** C3.  When the document has a [base] and a [linux] section, resolving it
    on a linux host succeeds with a mapping in which every key of [base] is
    present: with the value of the [linux] section when that section has the
    key, with its [base] value otherwise. *)
Theorem resolve_linux_overlays_base
    (h : Host) (w : World) (path : string) (doc base linux : Dict.t) :
  PlatformConfig.get_platform h = "linux" ->
  holds_document h w path (VDict doc) ->
  Dict.get doc "base" = Some (VDict base) ->
  Dict.get doc "linux" = Some (VDict linux) ->
  Dict.wf base ->
  Dict.wf linux ->
  exists cfg,
    BuildConfig.init h path w = (Ok (BuildConfig.mk path "linux" cfg), w) /\
    forall k vb,
      Dict.get base k = Some vb ->
      Dict.get cfg k = Some (Dict.get_default linux k vb).
Proof.
  intros Hplat Hdoc Hbase Hlinux Hwb Hwl.
  exists (Dict.merge base linux). split.
  - rewrite (init_document Hdoc), Hplat.
    unfold resolve_document, value_get, Dict.get_default.
    now rewrite Hbase, Hlinux.
  - intros k vb Hk.
    rewrite dict_get_merge by assumption.
    unfold Dict.get_default. rewrite Hk.
    now destruct (Dict.get linux k).
Qed.

Lemma resolve_linux_overlays_base_witness :
  exists cfg,
    BuildConfig.init (quiet_host "linux") "build_config.json" sample_world =
      (Ok (BuildConfig.mk "build_config.json" "linux" cfg), sample_world) /\
    forall k vb,
      Dict.get [ ("app_name", VStr "Demo"); ("version", VStr "1.2");
                 ("console", VBool true) ] k = Some vb ->
      Dict.get cfg k =
      Some (Dict.get_default [ ("console", VBool false);
                               ("categories", VStr "Game;") ] k vb).
Proof.
  apply (@resolve_linux_overlays_base (quiet_host "linux") sample_world
           "build_config.json"
           [ ("base", VDict [ ("app_name", VStr "Demo"); ("version", VStr "1.2");
                              ("console", VBool true) ]);
             ("linux", VDict [ ("console", VBool false);
                               ("categories", VStr "Game;") ]);
             ("windows", VDict [ ("uac_admin", VBool true) ]) ]).
  - reflexivity.
  - exists (Json sample_document). split; reflexivity.
  - reflexivity.
  - reflexivity.
  - unfold Dict.wf. simpl.
    repeat (constructor; [simpl; intuition discriminate|]). constructor.
  - unfold Dict.wf. simpl.
    repeat (constructor; [simpl; intuition discriminate|]). constructor.
Defined.

(** C9.  Two documents that agree on the [base] section and on the section
    of the current platform resolve to the same result, whatever their other
    sections are. *)
Theorem resolve_ignores_other_sections
    (h : Host) (w1 w2 : World) (path : string) (doc1 doc2 : Dict.t) :
  holds_document h w1 path (VDict doc1) ->
  holds_document h w2 path (VDict doc2) ->
  Dict.get doc1 "base" = Dict.get doc2 "base" ->
  Dict.get doc1 (PlatformConfig.get_platform h) =
  Dict.get doc2 (PlatformConfig.get_platform h) ->
  fst (BuildConfig.init h path w1) = fst (BuildConfig.init h path w2).
Proof.
  intros H1 H2 Hb Hp.
  rewrite (init_document H1), (init_document H2).
  unfold resolve_document, value_get, Dict.get_default.
  rewrite Hb, Hp.
  destruct (dict_display _ _); reflexivity.
Qed.

Lemma resolve_ignores_other_sections_witness :
  fst (BuildConfig.init (quiet_host "linux") "build_config.json" sample_world) =
  fst (BuildConfig.init (quiet_host "linux") "build_config.json"
         (mkWorld [ ("build_config.json",
                     File (Json (VDict
                       [ ("macos", VDict [ ("bundle_identifier", VStr "org.demo") ]);
                         ("linux", VDict [ ("console", VBool false);
                                           ("categories", VStr "Game;") ]);
                         ("base", VDict [ ("app_name", VStr "Demo");
                                          ("version", VStr "1.2");
                                          ("console", VBool true) ]) ]))) ] [])).
Proof.
  eapply resolve_ignores_other_sections.
  - exists (Json sample_document). split; reflexivity.
  - eexists. split; reflexivity.
  - reflexivity.
  - reflexivity.
Defined.

Lemma get_platform_cases (h : Host) :
  (PlatformConfig.get_platform h = "windows" /\
   PlatformConfig.get_icon_extension h = ".ico") \/
  (PlatformConfig.get_platform h = "macos" /\
   PlatformConfig.get_icon_extension h = ".icns") \/
  (PlatformConfig.get_platform h = "linux" /\
   PlatformConfig.get_icon_extension h = ".png").
Proof.
  unfold PlatformConfig.get_platform, PlatformConfig.get_icon_extension.
  destruct (sys_platform h =? "win32"); auto.
  destruct (sys_platform h =? "darwin"); auto.
Qed.

(** Without a file at the path, resolving succeeds and leaves the world as
    it was. *)
Lemma init_absent_ok (h : Host) (w : World) (path : string) :
  fs_lookup (fs w) path = None ->
  exists cfg, BuildConfig.init h path w = (Ok cfg, w).
Proof.
  intros Hfs. rewrite init_load, load_config_absent by assumption.
  unfold BuildConfig._default_config.
  destruct (get_platform_cases h) as [[Hp _]|[[Hp _]|[Hp _]]]; rewrite Hp;
    eexists; reflexivity.
Qed.



(** C5.  When the file at the path exists and its text is not well-formed,
    resolving raises the parse error and leaves the world as it was; it does
    not return the defaults, which is what it returns when the file is
    absent. *)
Theorem resolve_malformed_raises (h : Host) (w : World) (path s : string) :
  fs_lookup (fs w) path = Some (File (Text s)) ->
  json_loads h s = None ->
  BuildConfig.init h path w = (Raise JSONDecodeError, w) /\
  forall w', fs_lookup (fs w') path = None ->
             exists cfg, BuildConfig.init h path w' = (Ok cfg, w').
Proof.
  intros Hfs Hbad. split.
  - rewrite init_load.
    unfold BuildConfig._load_config, bind, os_path_exists, json_load, bind,
      read_file, raise.
    repeat (rewrite Hfs; simpl). now rewrite Hbad.
  - intros w' Hfs'.
    exact (@init_absent_ok h w' path Hfs').
Qed.

Lemma resolve_malformed_raises_witness :
  BuildConfig.init (quiet_host "linux") "broken.json" sample_world =
    (Raise JSONDecodeError, sample_world) /\
  forall w', fs_lookup (fs w') "broken.json" = None ->
             exists cfg, BuildConfig.init (quiet_host "linux") "broken.json" w' = (Ok cfg, w').
Proof.
  apply (@resolve_malformed_raises (quiet_host "linux") sample_world
           "broken.json" "{ not json"); reflexivity.
Defined.

(** ** Saving the configuration *)

(** After [save], the file holds the flat configuration as its document, and
    loading reads that flat mapping as if it were layered. *)
Lemma save_then_load (h : Host) (self : BuildConfig.t) (w w1 : World) (platform : string) :
  BuildConfig.save self w = (Ok tt, w1) ->
  BuildConfig._load_config h (BuildConfig.config_file self) platform w1 =
  (resolve_document (VDict (BuildConfig.config self)) platform, w1).
Proof.
  unfold BuildConfig.save, json_dump, write_file. intros Hs.
  apply load_config_document.
  exists (Json (VDict (BuildConfig.config self))). split; [|reflexivity].
  destruct (fs_lookup (fs w) (BuildConfig.config_file self)) as [[|c]|];
    inversion Hs; subst; simpl; now rewrite String.eqb_refl.
Qed.

(** A saved configuration that has no key [base] and no key named after the
    platform is read back as the empty mapping. *)
Lemma save_then_load_flat (h : Host) (self : BuildConfig.t) (w w1 : World) (platform : string) :
  BuildConfig.save self w = (Ok tt, w1) ->
  Dict.get (BuildConfig.config self) "base" = None ->
  Dict.get (BuildConfig.config self) platform = None ->
  BuildConfig._load_config h (BuildConfig.config_file self) platform w1 =
  (Ok Dict.empty, w1).
Proof.
  intros Hs Hb Hp. rewrite (@save_then_load h _ _ _ platform Hs).
  unfold resolve_document, value_get, Dict.get_default.
  now rewrite Hb, Hp.
Qed.

(** C1.  On a linux host without a configuration file, the defaults are
    resolved, saved, and resolved again from the file just written: the
    second resolution returns the empty mapping, not the mapping saved. *)
Theorem save_then_resolve_returns_empty :
  exists c w1,
    BuildConfig.init (quiet_host "linux") "build_config.json" empty_world =
      (Ok c, empty_world) /\
    Dict.get (BuildConfig.config c) "app_name" = Some (VStr "YourApp") /\
    BuildConfig.save c empty_world = (Ok tt, w1) /\
    BuildConfig.init (quiet_host "linux") "build_config.json" w1 =
      (Ok (BuildConfig.mk "build_config.json" "linux" Dict.empty), w1).
Proof.
  do 2 eexists. repeat split; reflexivity.
Qed.

(** ** The version of the Windows resource *)

Lemma pad_loop_spec (fuel : nat) :
  forall parts : list string,
    4 - length parts <= fuel ->
    WindowsBuilder.pad_loop fuel parts = (parts ++ repeat "0" (4 - length parts))%list.
Proof.
  induction fuel as [|fuel IH]; intros parts Hf; cbn [WindowsBuilder.pad_loop].
  - replace (4 - length parts) with 0 by lia. simpl. now rewrite app_nil_r.
  - destruct (length parts <? 4)%nat eqn:E.
    + apply Nat.ltb_lt in E.
      rewrite IH by (rewrite length_app; cbn [length]; lia).
      rewrite length_app. cbn [length].
      replace (4 - length parts) with (S (4 - (length parts + 1))) by lia.
      cbn [repeat]. now rewrite <- app_assoc.
    + apply Nat.ltb_ge in E.
      replace (4 - length parts) with 0 by lia. simpl. now rewrite app_nil_r.
Qed.

(** The loop stops with at least four parts: the parts it was given,
    followed by the zeros that were missing. *)
Lemma pad_version_spec (parts : list string) :
  WindowsBuilder.pad_version parts = (parts ++ repeat "0" (4 - length parts))%list /\
  length (WindowsBuilder.pad_version parts) = Nat.max 4 (length parts).
Proof.
  unfold WindowsBuilder.pad_version.
  rewrite pad_loop_spec by lia. split; auto.
  rewrite length_app, repeat_length. lia.
Qed.




(** ** The signing identity *)

Lemma take_hex_spec (n : nat) :
  forall s m : string,
    MacOSBuilder.take_hex n s = Some m ->
    String.length m = n /\
    forallb MacOSBuilder.is_hex_upper (list_ascii_of_string m) = true.
Proof.
  induction n as [|n IH]; intros s m H; simpl in H.
  - inversion H. subst. auto.
  - destruct s as [|c r]; [discriminate|].
    destruct (MacOSBuilder.is_hex_upper c) eqn:Hc; [|discriminate].
    destruct (MacOSBuilder.take_hex n r) as [m'|] eqn:Hr; [|discriminate].
    inversion H. subst m.
    destruct (IH _ _ Hr) as [Hl Hh].
    cbn [String.length list_ascii_of_string forallb].
    rewrite Hl, Hc, Hh. auto.
Qed.

Lemma re_search_hex40_identifier (line m : string) :
  MacOSBuilder.re_search_hex40 line = Some m -> is_identifier m.
Proof.
  induction line as [|c r IH]; intros H.
  - discriminate.
  - cbn [MacOSBuilder.re_search_hex40] in H.
    destruct (MacOSBuilder.take_hex 40 (String c r)) as [m'|] eqn:Ht.
    + inversion H. subst m'. exact (take_hex_spec _ _ Ht).
    + auto.
Qed.

Lemma identifier_truthy (m : string) : is_identifier m -> truthy (VStr m) = true.
Proof.
  intros [Hl _]. destruct m; [discriminate|reflexivity].
Qed.

Lemma dict_keys_set (k : string) (v : value) (d : Dict.t) :
  In k (Dict.keys d) -> Dict.keys (Dict.set k v d) = Dict.keys d.
Proof.
  induction d as [|[k' v'] r IH]; simpl; intros H; [contradiction|].
  destruct (k' =? k) eqn:E; simpl; auto.
  f_equal. apply IH. destruct H as [H|H]; auto.
  subst. now rewrite String.eqb_refl in E.
Qed.

Lemma dict_in_set (k a : string) (v b : value) (d : Dict.t) :
  In (a, b) (Dict.set k v d) -> In (a, b) d \/ (a = k /\ b = v).
Proof.
  induction d as [|[k' v'] r IH]; simpl; intros H.
  - destruct H as [H|[]]. inversion H. auto.
  - destruct (k' =? k) eqn:E; simpl in H.
    + apply String.eqb_eq in E. subst k'.
      destruct H as [H|H]; [inversion H; auto|auto].
    + destruct H as [H|H]; auto.
      destruct (IH H); auto.
Qed.

Lemma dict_get_app_first (d1 d2 : Dict.t) (k : string) (v : value) :
  ~ In k (Dict.keys d1) -> Dict.get (d1 ++ (k, v) :: d2)%list k = Some v.
Proof.
  induction d1 as [|[k' v'] r IH]; simpl; intros Hn.
  - now rewrite String.eqb_refl.
  - destruct (k' =? k) eqn:E.
    + apply String.eqb_eq in E. tauto.
    + apply IH. tauto.
Qed.

(** One line either leaves the identities as they are, or records its
    identifier under a label that the line contains. *)
Lemma scan_line_cases (line : string) (labels : list string) (ids : Dict.t) :
  MacOSBuilder.scan_line line labels ids = ids \/
  exists k m,
    In k labels /\ str_contains k line = true /\
    MacOSBuilder.re_search_hex40 line = Some m /\
    MacOSBuilder.scan_line line labels ids = Dict.set k (VStr m) ids.
Proof.
  induction labels as [|l rest IH]; simpl; auto.
  destruct (str_contains l line) eqn:Hc.
  - destruct (MacOSBuilder.re_search_hex40 line) as [m|] eqn:Hm.
    + right. exists l, m. auto.
    + destruct IH as [IH|(k & m & Hin & H1 & H2 & H3)]; auto.
      right. exists k, m. auto.
  - destruct IH as [IH|(k & m & Hin & H1 & H2 & H3)]; auto.
    right. exists k, m. auto.
Qed.

(** A line that matches [label] and none of the labels before it records
    its identifier under [label]. *)
Lemma scan_line_assigns (line label m : string) (higher lower : list string) (ids : Dict.t) :
  (forall k, In k higher -> class_match k line = false) ->
  str_contains label line = true ->
  MacOSBuilder.re_search_hex40 line = Some m ->
  MacOSBuilder.scan_line line (higher ++ label :: lower) ids =
  Dict.set label (VStr m) ids.
Proof.
  intros Hh Hc Hm.
  induction higher as [|k rest IH]; simpl.
  - now rewrite Hc, Hm.
  - assert (Hk : str_contains k line = false).
    { specialize (Hh k (or_introl eq_refl)).
      unfold class_match in Hh. rewrite Hm in Hh.
      now rewrite andb_true_r in Hh. }
    rewrite Hk. apply IH. intros k' Hin. apply Hh. now right.
Qed.

(** The first entry with a true value is found behind entries with false
    values. *)
Lemma first_identity_skips (d1 d2 : Dict.t) (k : string) (v : value) :
  (forall k' v', In (k', v') d1 -> truthy v' = false) ->
  truthy v = true ->
  MacOSBuilder.first_identity (d1 ++ (k, v) :: d2)%list = Some (k, v).
Proof.
  intros Hf Hv. induction d1 as [|[k' v'] r IH]; simpl.
  - now rewrite Hv.
  - rewrite (Hf k' v') by now left.
    apply IH. intros k0 v0 Hin. apply (Hf k0 v0). now right.
Qed.

Lemma first_identity_none (d : Dict.t) :
  (forall k v, In (k, v) d -> truthy v = false) ->
  MacOSBuilder.first_identity d = None.
Proof.
  induction d as [|[k v] r IH]; simpl; intros Hf; auto.
  rewrite (Hf k v) by now left.
  apply IH. intros k0 v0 Hin. apply (Hf k0 v0). now right.
Qed.

Lemma scan_lines_cons (line : string) (lines : list string) (ids : Dict.t) :
  MacOSBuilder.scan_lines (line :: lines) ids =
  MacOSBuilder.scan_lines lines (MacOSBuilder.scan_line line (Dict.keys ids) ids).
Proof. reflexivity. Qed.

Lemma scan_line_keys (line : string) (ids : Dict.t) :
  Dict.keys (MacOSBuilder.scan_line line (Dict.keys ids) ids) = Dict.keys ids.
Proof.
  destruct (scan_line_cases line (Dict.keys ids) ids) as [->|(k & m & Hin & _ & _ & ->)]; auto.
  now apply dict_keys_set.
Qed.

Section ScanInvariant.

Variable all_lines : list string.

Lemma scan_lines_recorded (lines : list string) :
  incl lines all_lines ->
  forall ids, recorded all_lines ids ->
              recorded all_lines (MacOSBuilder.scan_lines lines ids).
Proof.
  induction lines as [|line rest IH]; intros Hincl ids Hrec; [exact Hrec|].
  rewrite scan_lines_cons. apply IH.
  - intros x Hx. apply Hincl. now right.
  - destruct (scan_line_cases line (Dict.keys ids) ids)
      as [->|(k & m & Hin & Hc & Hm & ->)]; [exact Hrec|].
    intros a b Hab. destruct (dict_in_set _ _ _ _ _ Hab) as [Hold|[-> ->]].
    + now apply Hrec.
    + right. exists line, m. repeat split; auto. apply Hincl. now left.
Qed.

End ScanInvariant.

Lemma scan_lines_keys (lines : list string) :
  forall ids, Dict.keys (MacOSBuilder.scan_lines lines ids) = Dict.keys ids.
Proof.
  induction lines as [|line rest IH]; intros ids; [reflexivity|].
  rewrite scan_lines_cons, IH. apply scan_line_keys.
Qed.

(** Once a line has matched [label] and no line matches a label before it,
    [label] holds an identifier at the end. *)
Lemma scan_lines_assigned (label : string) (higher lower : list string) (lines : list string) :
  (forall k line, In k higher -> In line lines -> class_match k line = false) ->
  forall ids,
    Dict.keys ids = (higher ++ label :: lower)%list ->
    (exists m, Dict.get ids label = Some (VStr m)) \/
    (exists line, In line lines /\ class_match label line = true) ->
    exists m, Dict.get (MacOSBuilder.scan_lines lines ids) label = Some (VStr m).
Proof.
  induction lines as [|line rest IH]; intros Hhigh ids Hkeys Hor.
  - destruct Hor as [H|(line & [] & _)]. exact H.
  - rewrite scan_lines_cons. apply IH.
    + intros k l Hk Hl. apply Hhigh; auto. now right.
    + now rewrite scan_line_keys.
    + destruct Hor as [(m0 & Hget)|(l & [<-|Hin] & Hmatch)].
      * left.
        destruct (scan_line_cases line (Dict.keys ids) ids)
          as [->|(k & m & _ & _ & _ & ->)]; [eauto|].
        destruct (String.eqb_spec k label) as [->|Hne].
        -- rewrite dict_get_set_same. eauto.
        -- rewrite dict_get_set_other by assumption. eauto.
      * left. unfold class_match in Hmatch.
        apply andb_true_iff in Hmatch. destruct Hmatch as [Hc Hm].
        destruct (MacOSBuilder.re_search_hex40 line) as [m|] eqn:Hs; [|discriminate].
        exists m. rewrite Hkeys.
        rewrite (@scan_line_assigns line label m higher lower ids); auto.
        -- apply dict_get_set_same.
        -- intros k Hk. apply Hhigh; auto. now left.
      * right. eauto.
Qed.

Lemma identity_labels_nodup : NoDup identity_labels.
Proof.
  unfold identity_labels. simpl.
  repeat (constructor; [simpl; intuition discriminate|]). constructor.
Qed.

Lemma initial_identities_recorded (all_lines : list string) :
  recorded all_lines MacOSBuilder.initial_identities.
Proof.
  intros k v Hin. left. simpl in Hin.
  repeat (destruct Hin as [Hin|Hin]; [now inversion Hin|]). contradiction.
Qed.

(** The identities after the scan, when a class matches and no class before
    it does: the first true value is an identifier taken from a line with the
    label of that class. *)
Lemma scan_result_highest (lines : list string) (label : string) (higher lower : list string) :
  identity_labels = (higher ++ label :: lower)%list ->
  (forall k line, In k higher -> In line lines -> class_match k line = false) ->
  (exists line, In line lines /\ class_match label line = true) ->
  exists line m,
    In line lines /\ str_contains label line = true /\
    MacOSBuilder.re_search_hex40 line = Some m /\
    MacOSBuilder.first_identity
      (MacOSBuilder.scan_lines lines MacOSBuilder.initial_identities) =
    Some (label, VStr m).
Proof.
  intros Hlabels Hhigh Hex.
  set (ids := MacOSBuilder.scan_lines lines MacOSBuilder.initial_identities).
  assert (Hkeys : Dict.keys ids = (higher ++ label :: lower)%list).
  { unfold ids. rewrite scan_lines_keys. exact Hlabels. }
  assert (Hrec : recorded lines ids).
  { apply scan_lines_recorded; [apply incl_refl|apply initial_identities_recorded]. }
  destruct (@scan_lines_assigned label higher lower lines Hhigh
              MacOSBuilder.initial_identities Hlabels (or_intror Hex)) as (m & Hget).
  fold ids in Hget.
  unfold Dict.keys in Hkeys.
  apply map_eq_app in Hkeys. destruct Hkeys as (d1 & d2' & Hids & Hd1 & Hd2).
  destruct d2' as [|[k v] d2]; [discriminate|].
  simpl in Hd2. inversion Hd2 as [[Hk Hd2']]. subst k.
  assert (Hnotin : ~ In label (Dict.keys d1)).
  { unfold Dict.keys. rewrite Hd1.
    pose proof identity_labels_nodup as Hnd. rewrite Hlabels in Hnd.
    apply NoDup_remove_2 in Hnd. intros Hin. apply Hnd.
    apply in_or_app. now left. }
  rewrite Hids in Hget. rewrite dict_get_app_first in Hget by assumption.
  inversion Hget. subst v.
  destruct (Hrec label (VStr m)) as [Hnone|(line & m' & Hin & Hc & Hs & Hv)].
  { rewrite Hids. apply in_or_app. right. now left. }
  { discriminate. }
  inversion Hv. subst m'.
  exists line, m. repeat split; auto.
  rewrite Hids. apply first_identity_skips.
  - intros k' v' Hin'.
    destruct (Hrec k' v') as [->|(l & mm & Hl & Hcl & Hsl & ->)].
    { rewrite Hids. apply in_or_app. now left. }
    { reflexivity. }
    assert (Hk' : In k' higher).
    { rewrite <- Hd1. apply (in_map fst _ _ Hin'). }
    specialize (Hhigh k' l Hk' Hl). unfold class_match in Hhigh.
    rewrite Hcl, Hsl in Hhigh. discriminate.
  - apply identifier_truthy. exact (re_search_hex40_identifier _ Hs).
Qed.

(** Without any label in any line, the scan changes nothing. *)
Lemma scan_lines_no_label (lines : list string) :
  (forall label line, In label identity_labels -> In line lines ->
                      str_contains label line = false) ->
  MacOSBuilder.scan_lines lines MacOSBuilder.initial_identities =
  MacOSBuilder.initial_identities.
Proof.
  intros Hno.
  assert (Hgen : forall ids, Dict.keys ids = identity_labels ->
                             MacOSBuilder.scan_lines lines ids = ids).
  { induction lines as [|line rest IH]; intros ids Hk; [reflexivity|].
    rewrite scan_lines_cons.
    destruct (scan_line_cases line (Dict.keys ids) ids)
      as [->|(k & m & Hin & Hc & _ & _)].
    - apply IH; auto. intros l x Hl Hx. apply Hno; auto. now right.
    - rewrite Hk in Hin. rewrite (Hno k line Hin) in Hc by now left.
      discriminate. }
  now apply Hgen.
Qed.

(** [get_signing_identity] once the listing has run and exited. *)
Lemma get_signing_identity_exited (h : Host) (w : World) (rc : Z) (out : string) (fs' : FS) :
  spawn h security_args (fs w) = (Exited rc out, fs') ->
  fst (MacOSBuilder.get_signing_identity h w) =
  if (rc =? 0)%Z then
    Ok (match MacOSBuilder.first_identity
                (MacOSBuilder.scan_lines (str_splitlines out)
                   MacOSBuilder.initial_identities) with
        | Some (_, hash_value) => hash_value
        | None => VStr "-"
        end)
  else Ok (VStr "-").
Proof.
  intros Hsp.
  unfold MacOSBuilder.get_signing_identity, try_except_CalledProcessError,
    bind, subprocess_run.
  cbn [MacOSBuilder.security_cmd all_str option_map].
  fold security_args. rewrite Hsp.
  destruct (rc =? 0)%Z; [|reflexivity].
  destruct (MacOSBuilder.first_identity _) as [[identity hash_value]|];
    reflexivity.
Qed.



(** ** Running the monad backwards *)

Lemma bind_ok {A B} (m : M A) (k : A -> M B) (w w2 : World) (b : B) :
  bind m k w = (Ok b, w2) ->
  exists a w1, m w = (Ok a, w1) /\ k a w1 = (Ok b, w2).
Proof.
  unfold bind. destruct (m w) as [[a|e] w1]; intros H; [eauto|discriminate].
Qed.

Lemma lift_ok {A} (r : result A) (w w1 : World) (a : A) :
  lift r w = (Ok a, w1) -> r = Ok a /\ w1 = w.
Proof.
  unfold lift. intros H. inversion H. auto.
Qed.

Lemma ret_ok {A} (x a : A) (w w1 : World) :
  ret x w = (Ok a, w1) -> a = x /\ w1 = w.
Proof.
  unfold ret. intros H. inversion H. auto.
Qed.

Ltac bind_inv H :=
  let a := fresh "a" in
  let w := fresh "w" in
  let Ha := fresh "Hstep" in
  apply bind_ok in H; destruct H as (a & w & Ha & H).

Ltac lift_inv H :=
  let E := fresh "E" in
  apply lift_ok in H; destruct H as [H E]; subst.

(** ** The windowed flag in the bundler command *)

Lemma is_windowed_flag_spec (v : value) :
  is_windowed_flag v = true <-> v = windowed_flag.
Proof.
  unfold windowed_flag. split.
  - destruct v; simpl; try discriminate.
    intros H. apply String.eqb_eq in H. now subst.
  - intros ->. reflexivity.
Qed.

Lemma not_flag (v : value) : is_windowed_flag v = false -> v <> windowed_flag.
Proof.
  intros H Hv. apply is_windowed_flag_spec in Hv. congruence.
Qed.

Lemma dict_get_in (d : Dict.t) (k : string) (v : value) :
  Dict.get d k = Some v -> In (k, v) d.
Proof.
  induction d as [|[k' v'] r IH]; simpl; intros H; [discriminate|].
  destruct (String.eqb_spec k' k) as [->|Hne].
  - inversion H. now left.
  - right. auto.
Qed.

Lemma free_of_windowed_get (cfg : Dict.t) (k : string) (v : value) :
  free_of_windowed cfg = true ->
  Dict.get cfg k = Some v ->
  v <> windowed_flag /\
  forall l, py_iter v = Ok l -> ~ In windowed_flag l.
Proof.
  intros Hfree Hget. apply dict_get_in in Hget.
  unfold free_of_windowed in Hfree. rewrite forallb_forall in Hfree.
  specialize (Hfree _ Hget). simpl in Hfree.
  apply andb_true_iff in Hfree. destruct Hfree as [Hv Hl].
  split.
  - apply not_flag. now apply negb_true_iff.
  - intros l Hiter Hin. rewrite Hiter in Hl.
    rewrite forallb_forall in Hl. specialize (Hl _ Hin).
    discriminate.
Qed.

Lemma has_char_app (c : ascii) (a b : string) :
  has_char c (a ++ String c b) = true.
Proof.
  induction a as [|x a IH]; simpl.
  - now rewrite Ascii.eqb_refl.
  - rewrite IH. apply orb_true_r.
Qed.

(** An argument of [--add-data] holds the path separator, so it is not the
    windowed flag. *)
Lemma add_data_token_not_flag (h : Host) (a b : string) :
  VStr (a ++ os_pathsep h ++ b) <> windowed_flag.
Proof.
  unfold windowed_flag, os_pathsep. intros H. inversion H as [Hs].
  destruct (sys_platform h =? "win32").
  - pose proof (has_char_app ";" a b) as Hc. simpl in Hs. rewrite Hs in Hc.
    discriminate.
  - pose proof (has_char_app ":" a b) as Hc. simpl in Hs. rewrite Hs in Hc.
    discriminate.
Qed.

Lemma add_data_no_flag (h : Host) (items : list value) :
  forall data_args,
    mapM (AppBuilder.add_data_args h) items = Ok data_args ->
    ~ In windowed_flag (concat data_args).
Proof.
  induction items as [|item rest IH]; simpl; intros data_args H.
  - inversion H. simpl. tauto.
  - destruct (AppBuilder.add_data_args h item) as [args|e] eqn:Hargs; [|discriminate].
    destruct (mapM (AppBuilder.add_data_args h) rest) as [rest_args|e]; [|discriminate].
    inversion H. subst data_args. simpl. intros Hin.
    apply in_app_or in Hin. destruct Hin as [Hin|Hin].
    + unfold AppBuilder.add_data_args in Hargs.
      destruct (unpack2 item) as [[src dst]|e]; [|discriminate].
      inversion Hargs. subst args.
      destruct Hin as [Hin|[Hin|[]]].
      * discriminate.
      * exact (add_data_token_not_flag _ _ _ Hin).
    + exact (IH _ eq_refl Hin).
Qed.

Lemma hidden_imports_flag (imps : list value) :
  In windowed_flag (flat_map AppBuilder.hidden_import_args imps) ->
  In windowed_flag imps.
Proof.
  induction imps as [|imp rest IH]; simpl; auto.
  intros [H|[H|H]]; auto. discriminate.
Qed.

Lemma create_version_info_name (h : Host) (cfg : Dict.t) (w w1 : World) (name : string) :
  WindowsBuilder.create_version_info h cfg w = (Ok name, w1) ->
  name = "version_info.txt".
Proof.
  unfold WindowsBuilder.create_version_info. intros H.
  repeat bind_inv H.
  apply ret_ok in H. tauto.
Qed.

Lemma prepare_no_flag (h : Host) (self : AppBuilder.t) (w w1 : World) (extra : list value) :
  AppBuilder.prepare_platform_specific h self w = (Ok extra, w1) ->
  ~ In windowed_flag extra.
Proof.
  unfold AppBuilder.prepare_platform_specific. intros H.
  destruct (negb _).
  { apply ret_ok in H. destruct H as [-> _]. simpl. tauto. }
  destruct (AppBuilder.platform self =? "windows").
  { bind_inv H. apply create_version_info_name in Hstep. subst.
    destruct (truthy _); apply ret_ok in H; destruct H as [-> _];
      simpl; unfold windowed_flag; intuition discriminate. }
  destruct (AppBuilder.platform self =? "linux").
  { bind_inv H. apply ret_ok in H. destruct H as [-> _]. simpl. tauto. }
  apply ret_ok in H. destruct H as [-> _]. simpl. tauto.
Qed.

Lemma getitem_free (cfg : Dict.t) (k : string) (v : value) :
  free_of_windowed cfg = true ->
  getitem cfg k = Ok v ->
  v <> windowed_flag /\
  forall l, py_iter v = Ok l -> ~ In windowed_flag l.
Proof.
  unfold getitem. intros Hfree H.
  destruct (Dict.get cfg k) as [v'|] eqn:E; [|discriminate].
  inversion H. subst v'. exact (@free_of_windowed_get _ _ _ Hfree E).
Qed.

Ltac split_in H :=
  repeat match type of H with
         | _ \/ _ => destruct H as [H|H]
         end.




(** ** Which steps can raise [CalledProcessError] *)

Lemma safe_ret {A} (a : A) : safe (ret a).
Proof. intros w e w' H. discriminate. Qed.

Lemma safe_bind {A B} (m : M A) (k : A -> M B) :
  safe m -> (forall a, safe (k a)) -> safe (bind m k).
Proof.
  intros Hm Hk w e w' H. unfold bind in H.
  destruct (m w) as [[a|e0] w0] eqn:Emw.
  - exact (Hk a _ _ _ H).
  - inversion H. subst. exact (Hm _ _ _ Emw).
Qed.

Lemma safe_lift {A} (r : result A) : result_safe r -> safe (lift r).
Proof.
  intros Hr w e w' H. unfold lift in H. inversion H. subst. now apply Hr.
Qed.

Lemma safe_logger (lv : level) (msg : string) : safe (logger lv msg).
Proof. intros w e w' H. discriminate. Qed.

Lemma safe_write_file (path : string) (c : content) : safe (write_file path c).
Proof.
  intros w e w' H. unfold write_file in H.
  destruct (fs_lookup (fs w) path) as [[|c']|]; inversion H; reflexivity.
Qed.

Lemma safe_os_makedirs (path : string) : safe (os_makedirs path).
Proof.
  intros w e w' H. unfold os_makedirs in H.
  destruct (path =? ""); [inversion H; reflexivity|].
  destruct (fs_lookup (fs w) path) as [[|c']|]; inversion H; reflexivity.
Qed.

(** A [try] whose handler is safe is safe, whatever its body does. *)
Lemma safe_try {A} (body : M A) (handler : exn -> M A) :
  (forall e, safe (handler e)) ->
  safe (try_except_CalledProcessError body handler).
Proof.
  intros Hh w e w' H. unfold try_except_CalledProcessError in H.
  destruct (body w) as [[a|e0] w0]; [discriminate|].
  destruct e0; try (inversion H; subst; reflexivity).
  exact (Hh _ _ _ _ H).
Qed.

Lemma result_safe_getitem (d : Dict.t) (k : string) : result_safe (getitem d k).
Proof.
  intros e H. unfold getitem in H.
  destruct (Dict.get d k); inversion H. reflexivity.
Qed.

Lemma result_safe_value_get (v : value) (k : string) (default : value) :
  result_safe (value_get v k default).
Proof.
  intros e H. destruct v; inversion H; reflexivity.
Qed.

Lemma result_safe_py_iter (v : value) : result_safe (py_iter v).
Proof.
  intros e H. destruct v; inversion H; reflexivity.
Qed.

Lemma result_safe_os_path_join (a : value) (b : string) :
  result_safe (os_path_join a b).
Proof.
  intros e H. unfold os_path_join in H.
  destruct a; try (inversion H; reflexivity).
  destruct (str_startswith "/" b); [discriminate|].
  destruct ((s =? "") || ends_with_slash s); discriminate.
Qed.

Lemma result_safe_unpack2 (v : value) : result_safe (unpack2 v).
Proof.
  intros e H. unfold unpack2 in H.
  destruct (py_iter v) as [l|e0] eqn:Ei.
  - destruct l as [|a [|b [|c l]]]; inversion H; reflexivity.
  - inversion H. subst. exact (result_safe_py_iter _ Ei).
Qed.

Lemma result_safe_add_data_args (h : Host) (item : value) :
  result_safe (AppBuilder.add_data_args h item).
Proof.
  intros e H. unfold AppBuilder.add_data_args in H.
  destruct (unpack2 item) as [[src dst]|e0] eqn:Eu; [discriminate|].
  inversion H. subst. exact (result_safe_unpack2 _ Eu).
Qed.

Lemma result_safe_mapM {A B} (f : A -> result B) (l : list A) :
  (forall x, result_safe (f x)) -> result_safe (mapM f l).
Proof.
  intros Hf. induction l as [|x r IH]; intros e H; simpl in H; [discriminate|].
  destruct (f x) as [y|e0] eqn:Ef.
  - destruct (mapM f r) as [ys|e1]; [discriminate|].
    inversion H. subst. now apply IH.
  - inversion H. subst. exact (Hf _ _ Ef).
Qed.

Lemma result_safe_version_tuple (config : Dict.t) :
  result_safe (WindowsBuilder.version_tuple config).
Proof.
  intros e H. unfold WindowsBuilder.version_tuple in H.
  destruct (getitem config "version") as [v|e0] eqn:Eg.
  - destruct v; inversion H; reflexivity.
  - inversion H. subst. exact (result_safe_getitem _ _ Eg).
Qed.

Create HintDb safe_db.
#[local] Hint Resolve safe_ret safe_lift safe_logger safe_write_file safe_os_makedirs
  result_safe_getitem result_safe_value_get result_safe_py_iter
  result_safe_os_path_join result_safe_add_data_args result_safe_version_tuple
  : safe_db.

Ltac safe_steps :=
  repeat (apply safe_bind; [auto with safe_db|intros]); auto with safe_db.

Lemma safe_create_version_info (h : Host) (config : Dict.t) :
  safe (WindowsBuilder.create_version_info h config).
Proof. unfold WindowsBuilder.create_version_info. safe_steps. Qed.

Lemma safe_create_desktop_file (h : Host) (config : Dict.t) :
  safe (LinuxBuilder.create_desktop_file h config).
Proof. unfold LinuxBuilder.create_desktop_file. safe_steps. Qed.

Lemma safe_prepare_platform_specific (h : Host) (self : AppBuilder.t) :
  safe (AppBuilder.prepare_platform_specific h self).
Proof.
  unfold AppBuilder.prepare_platform_specific.
  destruct (negb _); [apply safe_ret|].
  destruct (AppBuilder.platform self =? "windows").
  { apply safe_bind; [apply safe_create_version_info|].
    intros a. destruct (truthy _); apply safe_ret. }
  destruct (AppBuilder.platform self =? "linux"); [|apply safe_ret].
  apply safe_bind; [apply safe_create_desktop_file|]. intros. apply safe_ret.
Qed.

Lemma safe_build_command (h : Host) (self : AppBuilder.t) :
  safe (AppBuilder.build_command h self).
Proof.
  unfold AppBuilder.build_command.
  apply safe_bind; [auto with safe_db|]. intros app_name. cbv zeta.
  apply safe_bind; [apply safe_prepare_platform_specific|]. intros extra.
  apply safe_bind; [auto with safe_db|]. intros hidden.
  apply safe_bind; [auto with safe_db|]. intros imps.
  apply safe_bind; [auto with safe_db|]. intros data.
  apply safe_bind; [auto with safe_db|]. intros items.
  apply safe_bind.
  { apply safe_lift. apply result_safe_mapM. intros x.
    apply result_safe_add_data_args. }
  intros data_args.
  apply safe_bind; [auto with safe_db|]. intros main_script.
  apply safe_ret.
Qed.

Lemma safe_sign_app (h : Host) (app_path : string) (config : Dict.t) :
  safe (MacOSBuilder.sign_app h app_path config).
Proof.
  unfold MacOSBuilder.sign_app. apply safe_try. intros e. safe_steps.
Qed.

Lemma safe_post_build (h : Host) (self : AppBuilder.t) :
  safe (AppBuilder.post_build h self).
Proof.
  unfold AppBuilder.post_build.
  destruct (AppBuilder.platform self =? "macos"); [|apply safe_ret].
  apply safe_bind; [auto with safe_db|]. intros dist_dir.
  apply safe_bind; [auto with safe_db|]. intros app_name.
  apply safe_bind; [auto with safe_db|]. intros app_path.
  apply safe_bind; [apply safe_sign_app|]. intros. apply safe_ret.
Qed.

(** ** The result of [build] *)

Lemma subprocess_run_called_process_error
    (h : Host) (cmd : list value) (w w' : World) (c : list string) (rc : Z) :
  subprocess_run h cmd w = (Raise (CalledProcessError c rc), w') ->
  exists out fs',
    all_str cmd = Some c /\ spawn h c (fs w) = (Exited rc out, fs') /\ rc <> 0%Z.
Proof.
  unfold subprocess_run. destruct (all_str cmd) as [args|]; [|discriminate].
  destruct (spawn h args (fs w)) as [[rc' out|denied] fs'] eqn:Es.
  - destruct (rc' =? 0)%Z eqn:Erc; [discriminate|].
    intros H. inversion H. subst. apply Z.eqb_neq in Erc. eauto.
  - destruct denied; discriminate.
Qed.

(** [sign_app] returns false only from its handler, after logging the
    failure. *)
Lemma sign_app_false_logged
    (h : Host) (app_path : string) (config : Dict.t) (w w' : World) :
  MacOSBuilder.sign_app h app_path config w = (Ok false, w') ->
  exists msg, last (log w') (INFO, "") = (ERROR, "Error during code signing: " ++ msg).
Proof.
  unfold MacOSBuilder.sign_app, try_except_CalledProcessError.
  match goal with |- context [match ?b w with _ => _ end] => destruct (b w) as [[r|e] w0] eqn:Ebody end.
  - intros H. inversion H. subst. exfalso.
    repeat bind_inv Ebody. apply ret_ok in Ebody. destruct Ebody. discriminate.
  - destruct e; try discriminate.
    unfold bind, logger, ret. intros H. inversion H. subst. simpl.
    eexists. apply last_last.
Qed.

(** C8.  On macos, when the bundler was started and exited with status 0 and
    the signing step that follows returns false, [build] returns true; the
    failure of the signing is in the log. *)
Theorem signing_failure_keeps_build_result
    (h : Host) (self : AppBuilder.t) (w w1 w2 w3 : World)
    (cmd : list value) (out : string) (dist_dir app_name : value) (app_path : string) :
  AppBuilder.platform self = "macos" ->
  AppBuilder.build_command h self w = (Ok cmd, w1) ->
  subprocess_run h cmd w1 = (Ok out, w2) ->
  getitem (BuildConfig.config (AppBuilder.config self)) "dist_dir" = Ok dist_dir ->
  getitem (BuildConfig.config (AppBuilder.config self)) "app_name" = Ok app_name ->
  os_path_join dist_dir (py_str h app_name ++ ".app") = Ok app_path ->
  MacOSBuilder.sign_app h app_path (BuildConfig.config (AppBuilder.config self))
    (mkWorld (fs w2) (log w2 ++ [(INFO, "Application built successfully!")])) =
    (Ok false, w3) ->
  AppBuilder.build h self w = (Ok true, w3) /\
  exists msg, last (log w3) (INFO, "") = (ERROR, "Error during code signing: " ++ msg).
Proof.
  intros Hplat Hcmd Hrun Hdist Happ Hjoin Hsign.
  split; [|exact (sign_app_false_logged _ _ _ _ Hsign)].
  unfold AppBuilder.build, try_except_CalledProcessError, bind.
  rewrite Hcmd, Hrun. unfold logger at 1.
  unfold AppBuilder.post_build. rewrite Hplat. cbn [String.eqb Ascii.eqb Bool.eqb].
  unfold bind, lift. rewrite Hdist, Happ, Hjoin, Hsign. reflexivity.
Qed.

Lemma signing_failure_keeps_build_result_witness :
  exists w3,
    AppBuilder.build signing_host
      (builder_of signing_host (default_config signing_host)) empty_world =
      (Ok true, w3) /\
    exists msg, last (log w3) (INFO, "") = (ERROR, "Error during code signing: " ++ msg).
Proof.
  eexists.
  eapply (@signing_failure_keeps_build_result signing_host
            (builder_of signing_host (default_config signing_host))
            empty_world empty_world empty_world _
            _ "" (VStr "dist") (VStr "YourApp") "dist/YourApp.app").
  - reflexivity.
  - vm_compute. reflexivity.
  - reflexivity.
  - reflexivity.
  - reflexivity.
  - reflexivity.
  - vm_compute. reflexivity.
Defined.

Lemma build_body_true (h : Host) (self : AppBuilder.t) (w w' : World) (b : bool) :
  (cmd <- AppBuilder.build_command h self ;;
   subprocess_run h cmd ;;;
   logger INFO "Application built successfully!" ;;;
   AppBuilder.post_build h self ;;;
   ret true) w = (Ok b, w') ->
  b = true.
Proof.
  intros H. repeat bind_inv H. apply ret_ok in H. tauto.
Qed.

(** [build] returns false only when the bundler ran and exited with a
    status that is not 0. *)
Lemma build_false_bundler_exit (h : Host) (self : AppBuilder.t) (w w' : World) :
  AppBuilder.build h self w = (Ok false, w') ->
  exists cmd w1 args rc out fs',
    AppBuilder.build_command h self w = (Ok cmd, w1) /\
    all_str cmd = Some args /\
    spawn h args (fs w1) = (Exited rc out, fs') /\
    rc <> 0%Z.
Proof.
  unfold AppBuilder.build, try_except_CalledProcessError.
  match goal with
  | |- context [match ?b w with _ => _ end] =>
      destruct (b w) as [[r|e] w0] eqn:Ebody
  end.
  - intros H. inversion H. subst.
    apply build_body_true in Ebody. discriminate.
  - destruct e as [key| | | | | | | | |c rc]; try discriminate. intros _.
    unfold bind in Ebody.
    destruct (AppBuilder.build_command h self w) as [[cmd|e] w1] eqn:Ecmd.
    + destruct (subprocess_run h cmd w1) as [[out|e] w2] eqn:Erun.
      * exfalso. unfold logger in Ebody.
        destruct (AppBuilder.post_build h self _) as [[u|e] w3] eqn:Epost.
        -- discriminate.
        -- inversion Ebody. subst.
           pose proof (@safe_post_build h self _ _ _ Epost). discriminate.
      * inversion Ebody. subst.
        destruct (subprocess_run_called_process_error _ _ _ Erun)
          as (out & fs' & Hall & Hsp & Hrc).
        exists cmd, w1, c, rc, out, fs'. auto.
    + exfalso. inversion Ebody. subst.
      pose proof (@safe_build_command h self _ _ _ Ecmd). discriminate.
Qed.



(** * Further properties *)

(** ** Splitting and joining the version *)

Lemma str_split_nonempty (sep : ascii) (s : string) : str_split sep s <> [].
Proof.
  destruct s as [|c r]; simpl; [discriminate|].
  destruct (Ascii.eqb c sep); [discriminate|].
  destruct (str_split sep r); discriminate.
Qed.

Lemma concat_cons (sep x : string) (l : list string) :
  l <> [] -> String.concat sep (x :: l) = x ++ sep ++ String.concat sep l.
Proof.
  destruct l; [congruence|reflexivity].
Qed.

Lemma concat_cons_char (sep : string) (c : ascii) (x : string) (l : list string) :
  String.concat sep (String c x :: l) = String c (String.concat sep (x :: l)).
Proof.
  destruct l; reflexivity.
Qed.

(** Joining the parts with another separator replaces the separator
    character by character. *)
Lemma join_split_replace (a b : ascii) (s : string) :
  str_join (String b EmptyString) (str_split a s) = replace_char a b s.
Proof.
  unfold str_join. induction s as [|c r IH]; [reflexivity|].
  cbn [str_split replace_char].
  destruct (Ascii.eqb c a).
  - rewrite concat_cons by apply str_split_nonempty.
    simpl. now rewrite IH.
  - pose proof (str_split_nonempty a r) as Hne.
    destruct (str_split a r) as [|x xs] eqn:E; [congruence|].
    rewrite concat_cons_char. now rewrite IH.
Qed.

(** X1.  For a version string with at least four parts, the text placed in
    [filevers] and [prodvers] is the version string with every dot replaced
    by a comma: nothing is added, dropped or checked. *)
Theorem version_tuple_replaces_dots (config : Dict.t) (s : string) :
  Dict.get config "version" = Some (VStr s) ->
  4 <= length (str_split "." s) ->
  WindowsBuilder.version_tuple config = Ok (replace_char "." "," s).
Proof.
  intros Hv Hlen.
  unfold WindowsBuilder.version_tuple, getitem. rewrite Hv. simpl.
  unfold WindowsBuilder.pad_version.
  rewrite pad_loop_spec by lia.
  replace (4 - length (str_split "." s)) with 0 by lia.
  simpl. rewrite app_nil_r.
  now rewrite join_split_replace.
Qed.

Lemma version_tuple_replaces_dots_witness :
  WindowsBuilder.version_tuple [("version", VStr "10.4.0.2.rc1")] =
  Ok (replace_char "." "," "10.4.0.2.rc1").
Proof.
  apply (@version_tuple_replaces_dots [("version", VStr "10.4.0.2.rc1")] "10.4.0.2.rc1").
  - reflexivity.
  - simpl. lia.
Defined.

(** ** The version resource file *)

Lemma bind_lift {A B} (r : result A) (k : A -> M B) (w : World) :
  bind (lift r) k w =
  match r with
  | Ok a => k a w
  | Raise e => (Raise e, w)
  end.
Proof. unfold bind, lift. now destruct r. Qed.

Lemma fs_lookup_cons_same (path : string) (n : node) (files : FS) :
  fs_lookup ((path, n) :: files) path = Some n.
Proof. simpl. now rewrite String.eqb_refl. Qed.

Lemma fs_lookup_cons_other (path path' : string) (n : node) (files : FS) :
  path' <> path -> fs_lookup ((path, n) :: files) path' = fs_lookup files path'.
Proof.
  intros Hne. simpl. destruct (String.eqb_spec path path'); congruence.
Qed.

(** What a successful [write_file] leaves. *)
Lemma write_file_ok (path : string) (c : content) (w w' : World) :
  write_file path c w = (Ok tt, w') ->
  fs w' = (path, File c) :: fs w /\ log w' = log w.
Proof.
  unfold write_file.
  destruct (fs_lookup (fs w) path) as [[|c0]|]; intros H; inversion H; auto.
Qed.

Lemma write_file_raise (path : string) (c : content) (w w' : World) (e : exn) :
  write_file path c w = (Raise e, w') ->
  w' = w /\ fs_lookup (fs w) path = Some Directory.
Proof.
  unfold write_file.
  destruct (fs_lookup (fs w) path) as [[|c0]|]; intros H; inversion H; auto.
Qed.



(** X3.  The application name is looked up whenever the version and the
    company section are in order, even when the company section supplies the
    description and the product name it would stand in for: without
    [app_name], [create_version_info] raises [KeyError] and writes
    nothing. *)
Theorem create_version_info_needs_app_name
    (h : Host) (config company : Dict.t) (w : World) (s : string) :
  Dict.get config "version" = Some (VStr s) ->
  Dict.get config "company" = Some (VDict company) ->
  Dict.get config "app_name" = None ->
  WindowsBuilder.create_version_info h config w = (Raise (KeyError "app_name"), w).
Proof.
  intros Hv Hc Ha.
  unfold WindowsBuilder.create_version_info.
  rewrite bind_lift.
  unfold WindowsBuilder.version_tuple, getitem. rewrite Hv. simpl.
  unfold Dict.get_default. rewrite Hc. simpl.
  rewrite !bind_lift. now rewrite Ha.
Qed.

Lemma create_version_info_needs_app_name_witness :
  WindowsBuilder.create_version_info (quiet_host "win32")
    [ ("version", VStr "1.0");
      ("company", VDict [ ("name", VStr "Acme");
                          ("description", VStr "A tool");
                          ("product_name", VStr "Tool") ]) ]
    empty_world =
  (Raise (KeyError "app_name"), empty_world).
Proof.
  apply (@create_version_info_needs_app_name (quiet_host "win32") _
           [ ("name", VStr "Acme"); ("description", VStr "A tool");
             ("product_name", VStr "Tool") ] empty_world "1.0");
    reflexivity.
Defined.


(** ** The desktop entry *)

Lemma has_char_append (c : ascii) (a b : string) :
  has_char c (a ++ b) = has_char c a || has_char c b.
Proof.
  induction a as [|x a IH]; simpl; [reflexivity|].
  rewrite IH. now rewrite orb_assoc.
Qed.

Lemma has_char_in (c : ascii) (s : string) :
  has_char c s = false -> ~ In c (list_ascii_of_string s).
Proof.
  induction s as [|x r IH]; simpl; [tauto|].
  intros H. apply orb_false_iff in H. destruct H as [Hx Hr].
  intros [->|Hin]; [now rewrite Ascii.eqb_refl in Hx|now apply IH].
Qed.

Lemma drop_basename_no_slash (l : list ascii) :
  ~ In "/"%char l -> drop_basename l = [].
Proof.
  induction l as [|c r IH]; simpl; intros Hn; [reflexivity|].
  destruct (Ascii.eqb_spec c "/") as [->|Hne]; [tauto|]. apply IH. tauto.
Qed.

Lemma drop_basename_app (l r : list ascii) :
  ~ In "/"%char l -> drop_basename (l ++ "/"%char :: r) = "/"%char :: r.
Proof.
  induction l as [|c l IH]; simpl; intros Hn; [reflexivity|].
  destruct (Ascii.eqb_spec c "/") as [->|Hne]; [tauto|]. apply IH. tauto.
Qed.

(** A name without a slash has the empty directory name. *)
Lemma dirname_no_slash (s : string) :
  has_char "/" s = false -> os_path_dirname s = "".
Proof.
  intros H. unfold os_path_dirname.
  rewrite drop_basename_no_slash; [reflexivity|].
  rewrite <- in_rev. now apply has_char_in.
Qed.

Lemma list_ascii_of_string_app (a b : string) :
  list_ascii_of_string (a ++ b) = (list_ascii_of_string a ++ list_ascii_of_string b)%list.
Proof.
  induction a as [|c a IH]; simpl; [reflexivity|]. now rewrite IH.
Qed.

Lemma str_last_rev (s : string) :
  str_last s = hd_error (rev (list_ascii_of_string s)).
Proof.
  induction s as [|c r IH]; [reflexivity|].
  cbn [list_ascii_of_string rev].
  destruct r as [|c' r']; [reflexivity|].
  change (str_last (String c (String c' r'))) with (str_last (String c' r')).
  rewrite IH.
  destruct (rev (list_ascii_of_string (String c' r'))) as [|x xs] eqn:E.
  - apply (f_equal (@length ascii)) in E. rewrite length_rev in E. discriminate.
  - reflexivity.
Qed.

(** The directory name of [d/b], for a directory [d] that is not empty and
    does not end in a slash and a name [b] without a slash, is [d]. *)
Lemma dirname_join (d b : string) :
  d <> "" -> ends_with_slash d = false -> has_char "/" b = false ->
  os_path_dirname (d ++ "/" ++ b) = d.
Proof.
  intros Hd Hs Hb. unfold os_path_dirname.
  rewrite !list_ascii_of_string_app. cbn [list_ascii_of_string].
  rewrite rev_app_distr. cbn [rev app].
  rewrite <- app_assoc. cbn [app].
  rewrite drop_basename_app by (rewrite <- in_rev; now apply has_char_in).
  cbn [rstrip_slashes]. rewrite Ascii.eqb_refl.
  unfold ends_with_slash in Hs. rewrite str_last_rev in Hs.
  destruct (rev (list_ascii_of_string d)) as [|c r] eqn:E.
  - destruct d; [congruence|].
    apply (f_equal (@length ascii)) in E. rewrite length_rev in E. discriminate.
  - cbn [rstrip_slashes hd_error] in *. rewrite Hs.
    rewrite <- E, rev_involutive. apply string_of_list_ascii_of_string.
Qed.

(** X5.  With an empty [build_dir] and an application name without a slash,
    [create_desktop_file] fails: the directory to create has the empty name,
    [os.makedirs] raises [FileNotFoundError], and nothing is written. *)
Theorem create_desktop_file_empty_build_dir
    (h : Host) (config : Dict.t) (w : World) (app_name version : value) :
  Dict.get config "app_name" = Some app_name ->
  Dict.get config "version" = Some version ->
  Dict.get config "build_dir" = Some (VStr "") ->
  has_char "/" (py_str h app_name) = false ->
  LinuxBuilder.create_desktop_file h config w = (Raise FileNotFoundError, w).
Proof.
  intros Ha Hv Hb Hn.
  unfold LinuxBuilder.create_desktop_file, getitem.
  rewrite Ha, Hv, Hb. repeat (rewrite bind_lift; cbv beta iota zeta).
  assert (Hname : has_char "/" (py_str h app_name ++ ".desktop") = false).
  { rewrite has_char_append, Hn. reflexivity. }
  assert (Hjoin : os_path_join (VStr "") (py_str h app_name ++ ".desktop") =
                  Ok (py_str h app_name ++ ".desktop")).
  { unfold os_path_join, str_startswith.
    destruct (py_str h app_name ++ ".desktop") as [|c r] eqn:E; [reflexivity|].
    simpl in Hname. apply orb_false_iff in Hname. destruct Hname as [Hc _].
    cbn [prefix].
    destruct (Ascii.ascii_dec "/" c) as [<-|Hne];
      [rewrite Ascii.eqb_refl in Hc; discriminate|].
    reflexivity. }
  rewrite Hjoin. repeat (rewrite bind_lift; cbv beta iota zeta).
  rewrite dirname_no_slash by exact Hname.
  reflexivity.
Qed.

Lemma create_desktop_file_empty_build_dir_witness :
  LinuxBuilder.create_desktop_file (quiet_host "linux")
    [ ("app_name", VStr "Demo"); ("version", VStr "1.0"); ("build_dir", VStr "") ]
    empty_world =
  (Raise FileNotFoundError, empty_world).
Proof.
  apply (@create_desktop_file_empty_build_dir (quiet_host "linux") _ empty_world
           (VStr "Demo") (VStr "1.0")); reflexivity.
Defined.

Lemma os_makedirs_ok (path : string) (w w' : World) :
  os_makedirs path w = (Ok tt, w') ->
  fs_lookup (fs w') path = Some Directory /\
  log w' = log w /\
  (forall p, p <> path -> fs_lookup (fs w') p = fs_lookup (fs w) p).
Proof.
  unfold os_makedirs. destruct (path =? ""); [discriminate|].
  destruct (fs_lookup (fs w) path) as [[|c]|] eqn:E; intros H; inversion H; subst.
  - auto.
  - cbn [fs log]. split; [apply fs_lookup_cons_same|]. split; [reflexivity|].
    intros p Hp. now apply fs_lookup_cons_other.
Qed.

(** X6.  When [create_desktop_file] returns a path, the path is the join of
    [build_dir] and the application name followed by ".desktop", the file at
    that path holds a text, the directory of the path exists as a directory,
    and the log is as it was. *)
Theorem create_desktop_file_postcondition
    (h : Host) (config : Dict.t) (w w' : World) (path : string) :
  LinuxBuilder.create_desktop_file h config w = (Ok path, w') ->
  (exists build_dir app_name,
     Dict.get config "build_dir" = Some build_dir /\
     Dict.get config "app_name" = Some app_name /\
     os_path_join build_dir (py_str h app_name ++ ".desktop") = Ok path) /\
  (exists text, fs_lookup (fs w') path = Some (File (Text text))) /\
  fs_lookup (fs w') (os_path_dirname path) = Some Directory /\
  log w' = log w.
Proof.
  unfold LinuxBuilder.create_desktop_file, getitem. intros H.
  bind_inv H. apply lift_ok in Hstep. destruct Hstep as [Ha ->].
  cbv zeta in H.
  bind_inv H. apply lift_ok in Hstep. destruct Hstep as [Hv ->].
  bind_inv H. apply lift_ok in Hstep. destruct Hstep as [Hb ->].
  bind_inv H. apply lift_ok in Hstep. destruct Hstep as [Hj ->].
  bind_inv H. rename Hstep into Hmk.
  bind_inv H. rename Hstep into Hwr.
  apply ret_ok in H. destruct H as [-> ->].
  destruct a3. destruct a4.
  destruct (os_makedirs_ok _ _ Hmk) as (Hdir & Hlog1 & _).
  destruct (write_file_ok _ _ _ Hwr) as (Hfs & Hlog2).
  destruct (Dict.get config "app_name") as [app_name|]; [|discriminate].
  destruct (Dict.get config "build_dir") as [build_dir|]; [|discriminate].
  inversion Ha. inversion Hb. subst.
  split; [eauto|]. split; [|split].
  - eexists. rewrite Hfs. apply fs_lookup_cons_same.
  - rewrite Hfs. rewrite fs_lookup_cons_other; [exact Hdir|].
    intros Heq. unfold write_file in Hwr. rewrite <- Heq, Hdir in Hwr.
    discriminate.
  - congruence.
Qed.

Lemma create_desktop_file_postcondition_witness :
  exists text,
    fs_lookup
      (fs (snd (LinuxBuilder.create_desktop_file (quiet_host "linux")
                  (default_config (quiet_host "linux")) empty_world)))
      "build/YourApp.desktop" = Some (File (Text text)).
Proof.
  destruct (LinuxBuilder.create_desktop_file (quiet_host "linux")
              (default_config (quiet_host "linux")) empty_world)
    as [r w'] eqn:E.
  assert (Hr : r = Ok "build/YourApp.desktop").
  { apply (f_equal fst) in E. vm_compute in E. now inversion E. }
  subst r.
  exact (proj1 (proj2 (@create_desktop_file_postcondition _ _ _ _ _ E))).
Defined.

Lemma string_length_append (a b : string) :
  String.length (a ++ b) = String.length a + String.length b.
Proof.
  induction a as [|c a IH]; simpl; [reflexivity|]. now rewrite IH.
Qed.

Lemma join_longer (d b : string) : d ++ "/" ++ b <> d.
Proof.
  intros H. apply (f_equal String.length) in H.
  rewrite string_length_append in H. simpl in H. lia.
Qed.

Lemma no_slash_not_prefixed (b : string) :
  has_char "/" b = false -> str_startswith "/" b = false.
Proof.
  unfold str_startswith. destruct b as [|c r]; [reflexivity|].
  simpl has_char. intros H. apply orb_false_iff in H. destruct H as [Hc _].
  cbn [prefix].
  destruct (Ascii.ascii_dec "/" c) as [<-|Hne]; [|reflexivity].
  now rewrite Ascii.eqb_refl in Hc.
Qed.

Lemma desktop_entry_written
    (h : Host) (config : Dict.t) (w : World) (a v d : string) :
  Dict.get config "app_name" = Some (VStr a) ->
  Dict.get config "version" = Some (VStr v) ->
  Dict.get config "build_dir" = Some (VStr d) ->
  d <> "" ->
  ends_with_slash d = false ->
  has_char "/" a = false ->
  (forall c, fs_lookup (fs w) d <> Some (File c)) ->
  fs_lookup (fs w) (d ++ "/" ++ a ++ ".desktop") <> Some Directory ->
  exists w',
    LinuxBuilder.create_desktop_file h config w =
      (Ok (d ++ "/" ++ a ++ ".desktop"), w') /\
    fs_lookup (fs w') (d ++ "/" ++ a ++ ".desktop") =
      Some (File (Text
        ("[Desktop Entry]" ++ LinuxBuilder.newline ++
         "Name=" ++ a ++ LinuxBuilder.newline ++
         "Exec=" ++ a ++ LinuxBuilder.newline ++
         "Icon=" ++ a ++ LinuxBuilder.newline ++
         "Type=Application" ++ LinuxBuilder.newline ++
         "Categories=" ++
           py_str h (Dict.get_default config "categories" (VStr "Utility;")) ++
           LinuxBuilder.newline ++
         "Version=" ++ v ++ LinuxBuilder.newline))).
Proof.
  intros Ha Hv Hb Hd Hs Hn Hfile Hdir.
  assert (Hname : has_char "/" (a ++ ".desktop") = false).
  { rewrite has_char_append, Hn. reflexivity. }
  unfold LinuxBuilder.create_desktop_file, getitem.
  rewrite Ha, Hv, Hb. repeat (rewrite bind_lift; cbv beta iota zeta).
  cbn [py_str].
  assert (Hjoin : os_path_join (VStr d) (a ++ ".desktop") =
                  Ok (d ++ "/" ++ a ++ ".desktop")).
  { unfold os_path_join. rewrite (no_slash_not_prefixed _ Hname), Hs.
    destruct (String.eqb_spec d ""); [contradiction|reflexivity]. }
  rewrite Hjoin. repeat (rewrite bind_lift; cbv beta iota zeta).
  rewrite (@dirname_join d (a ++ ".desktop") Hd Hs Hname).
  unfold bind, os_makedirs.
  destruct (String.eqb_spec d ""); [contradiction|].
  pose proof (@join_longer d (a ++ ".desktop")) as Hlong.
  destruct (fs_lookup (fs w) d) as [[|c]|] eqn:Ed.
  - unfold write_file.
    destruct (fs_lookup (fs w) (d ++ "/" ++ a ++ ".desktop")) as [[|c]|] eqn:Ep;
      [now elim Hdir| |];
      (eexists; split; [reflexivity|]; cbn [fs]; apply fs_lookup_cons_same).
  - now elim (Hfile c).
  - unfold write_file. cbn [fs log].
    rewrite fs_lookup_cons_other by exact Hlong.
    destruct (fs_lookup (fs w) (d ++ "/" ++ a ++ ".desktop")) as [[|c]|] eqn:Ep;
      [now elim Hdir| |];
      (eexists; split; [reflexivity|]; cbn [fs]; apply fs_lookup_cons_same).
Qed.



(** ** More on the signing identity *)

Lemma first_identity_in (d : Dict.t) (k : string) (v : value) :
  MacOSBuilder.first_identity d = Some (k, v) -> In (k, v) d /\ truthy v = true.
Proof.
  induction d as [|[k' v'] r IH]; simpl; intros H; [discriminate|].
  destruct (truthy v') eqn:Et.
  - inversion H. subst. auto.
  - destruct (IH H). auto.
Qed.

(** The value found by the last loop is an identifier. *)
Lemma scanned_identity_is_identifier (lines : list string) (k : string) (v : value) :
  MacOSBuilder.first_identity
    (MacOSBuilder.scan_lines lines MacOSBuilder.initial_identities) = Some (k, v) ->
  exists m, v = VStr m /\ is_identifier m.
Proof.
  intros H. apply first_identity_in in H. destruct H as [Hin Ht].
  assert (Hrec : recorded lines
            (MacOSBuilder.scan_lines lines MacOSBuilder.initial_identities)).
  { apply scan_lines_recorded; [apply incl_refl|apply initial_identities_recorded]. }
  destruct (Hrec k v Hin) as [->|(line & m & _ & _ & Hs & ->)]; [discriminate|].
  exists m. split; [reflexivity|]. exact (re_search_hex40_identifier _ Hs).
Qed.



Lemma identifier_not_sentinel (m : string) : is_identifier m -> VStr m <> VStr "-".
Proof.
  intros [Hl _] H. inversion H. subst. discriminate.
Qed.

(** X9.  Each call of [get_signing_identity] that returns adds exactly one
    entry to the log: an INFO entry when it returns an identifier, a WARNING
    or an ERROR entry when it returns "-". *)
Theorem signing_identity_logs_once
    (h : Host) (w w' : World) (v : value) :
  MacOSBuilder.get_signing_identity h w = (Ok v, w') ->
  exists lv msg,
    log w' = (log w ++ [(lv, msg)])%list /\
    (lv = INFO <-> v <> VStr "-").
Proof.
  unfold MacOSBuilder.get_signing_identity, try_except_CalledProcessError,
    bind, subprocess_run.
  cbn [MacOSBuilder.security_cmd all_str option_map]. fold security_args.
  destruct (spawn h security_args (fs w)) as [[rc out|denied] files] eqn:Es.
  - destruct (rc =? 0)%Z.
    + destruct (MacOSBuilder.first_identity _) as [[identity hash_value]|] eqn:Ef.
      * unfold logger, ret. intros H. inversion H. subst. cbn [log].
        destruct (scanned_identity_is_identifier _ Ef) as (m & -> & Hm).
        do 2 eexists. split; [reflexivity|].
        split; [intros _; now apply identifier_not_sentinel|reflexivity].
      * unfold logger, ret. intros H. inversion H. subst. cbn [log].
        do 2 eexists. split; [reflexivity|].
        split; [discriminate|congruence].
    + unfold logger, ret. intros H. inversion H. subst. cbn [log].
      do 2 eexists. split; [reflexivity|].
      split; [discriminate|congruence].
  - intros H. destruct denied; discriminate.
Qed.

Lemma signing_identity_logs_once_witness :
  exists lv msg,
    log (snd (MacOSBuilder.get_signing_identity signing_host empty_world)) =
      (log empty_world ++ [(lv, msg)])%list /\
    (lv = INFO <-> VStr "0123456789ABCDEF0123456789ABCDEF01234567" <> VStr "-").
Proof.
  apply (@signing_identity_logs_once signing_host empty_world).
  vm_compute. reflexivity.
Defined.

(** Lines that do not match [label] leave the entry of [label] as it is. *)
Lemma scan_lines_keeps (label : string) (lines : list string) :
  (forall l, In l lines -> class_match label l = false) ->
  forall ids,
    Dict.get (MacOSBuilder.scan_lines lines ids) label = Dict.get ids label.
Proof.
  induction lines as [|line rest IH]; intros Hno ids; [reflexivity|].
  rewrite scan_lines_cons, IH by (intros l Hl; apply Hno; now right).
  destruct (scan_line_cases line (Dict.keys ids) ids)
    as [->|(k & m & _ & Hc & Hs & ->)]; [reflexivity|].
  apply dict_get_set_other. intros ->.
  specialize (Hno line (or_introl eq_refl)).
  unfold class_match in Hno. rewrite Hc, Hs in Hno. discriminate.
Qed.

Lemma scan_lines_app (l1 l2 : list string) (ids : Dict.t) :
  MacOSBuilder.scan_lines (l1 ++ l2) ids =
  MacOSBuilder.scan_lines l2 (MacOSBuilder.scan_lines l1 ids).
Proof. unfold MacOSBuilder.scan_lines. apply fold_left_app. Qed.

(** When the entry of [label] holds an identifier and no line matches a
    label before it, the last loop returns that entry. *)
Lemma first_identity_of_entry
    (lines : list string) (label m : string) (higher lower : list string) :
  identity_labels = (higher ++ label :: lower)%list ->
  (forall k l, In k higher -> In l lines -> class_match k l = false) ->
  Dict.get (MacOSBuilder.scan_lines lines MacOSBuilder.initial_identities) label =
    Some (VStr m) ->
  is_identifier m ->
  MacOSBuilder.first_identity
    (MacOSBuilder.scan_lines lines MacOSBuilder.initial_identities) =
  Some (label, VStr m).
Proof.
  intros Hlabels Hhigh Hget Hm.
  set (ids := MacOSBuilder.scan_lines lines MacOSBuilder.initial_identities) in *.
  assert (Hkeys : Dict.keys ids = (higher ++ label :: lower)%list).
  { unfold ids. rewrite scan_lines_keys. exact Hlabels. }
  assert (Hrec : recorded lines ids).
  { apply scan_lines_recorded; [apply incl_refl|apply initial_identities_recorded]. }
  unfold Dict.keys in Hkeys.
  apply map_eq_app in Hkeys. destruct Hkeys as (d1 & d2' & Hids & Hd1 & Hd2).
  destruct d2' as [|[k v] d2]; [discriminate|].
  simpl in Hd2. inversion Hd2 as [[Hk Hd2']]. subst k.
  assert (Hnotin : ~ In label (Dict.keys d1)).
  { unfold Dict.keys. rewrite Hd1.
    pose proof identity_labels_nodup as Hnd. rewrite Hlabels in Hnd.
    apply NoDup_remove_2 in Hnd. intros Hin. apply Hnd.
    apply in_or_app. now left. }
  rewrite Hids in Hget. rewrite dict_get_app_first in Hget by assumption.
  inversion Hget. subst v.
  rewrite Hids. apply first_identity_skips.
  - intros k' v' Hin'.
    destruct (Hrec k' v') as [->|(l & mm & Hl & Hcl & Hsl & ->)].
    { rewrite Hids. apply in_or_app. now left. }
    { reflexivity. }
    assert (Hk' : In k' higher).
    { rewrite <- Hd1. apply (in_map fst _ _ Hin'). }
    specialize (Hhigh k' l Hk' Hl). unfold class_match in Hhigh.
    rewrite Hcl, Hsl in Hhigh. discriminate.
  - now apply identifier_truthy.
Qed.

(** X10.  Among the lines that match the class of highest priority, the
    last one decides: when a line matches a class, no later line matches
    that class and no line matches a class before it, the result is the
    identifier of that line. *)
Theorem last_matching_line_wins
    (h : Host) (w : World) (out : string) (files : FS)
    (label : string) (higher lower : list string)
    (before after : list string) (line m : string) :
  spawn h security_args (fs w) = (Exited 0 out, files) ->
  str_splitlines out = (before ++ line :: after)%list ->
  identity_labels = (higher ++ label :: lower)%list ->
  (forall k l, In k higher -> In l (str_splitlines out) -> class_match k l = false) ->
  str_contains label line = true ->
  MacOSBuilder.re_search_hex40 line = Some m ->
  (forall l, In l after -> class_match label l = false) ->
  fst (MacOSBuilder.get_signing_identity h w) = Ok (VStr m).
Proof.
  intros Hsp Hlines Hlabels Hhigh Hc Hs Hafter.
  rewrite (@get_signing_identity_exited h w 0%Z out files Hsp). cbn [Z.eqb].
  rewrite (@first_identity_of_entry (str_splitlines out) label m higher lower);
    auto.
  - rewrite Hlines.
    change (before ++ line :: after)%list with (before ++ [line] ++ after)%list.
    rewrite app_assoc, scan_lines_app.
    rewrite scan_lines_keeps by exact Hafter.
    rewrite scan_lines_app. cbn [MacOSBuilder.scan_lines fold_left].
    rewrite scan_lines_keys. fold identity_labels. rewrite Hlabels.
    rewrite (@scan_line_assigns line label m higher lower); auto.
    + apply dict_get_set_same.
    + intros k Hk. apply Hhigh; auto. rewrite Hlines.
      apply in_or_app. right. now left.
  - exact (re_search_hex40_identifier _ Hs).
Qed.

Lemma last_matching_line_wins_witness :
  fst (MacOSBuilder.get_signing_identity double_host empty_world) =
  Ok (VStr "89ABCDEF0123456789ABCDEF0123456789ABCDEF").
Proof.
  apply (@last_matching_line_wins double_host empty_world double_listing []
           "Apple Development" ["Developer ID Application"]
           ["3rd Party Mac Developer Application"; "Mac Developer"]
           ["  1) 0123456789ABCDEF0123456789ABCDEF01234567 Apple Development: one@example.org"]
           ["     2 valid identities found"]
           "  2) 89ABCDEF0123456789ABCDEF0123456789ABCDEF Apple Development: two@example.org").
  - reflexivity.
  - reflexivity.
  - reflexivity.
  - intros k l [<-|[]] Hl. vm_compute in Hl.
    destruct Hl as [<-|[<-|[<-|[]]]]; reflexivity.
  - reflexivity.
  - reflexivity.
  - intros l [<-|[]]. reflexivity.
Defined.

(** ** Signing the bundle *)

Lemma subprocess_run_ok (h : Host) (cmd : list value) (w w' : World) (out : string) :
  subprocess_run h cmd w = (Ok out, w') ->
  exists args files,
    all_str cmd = Some args /\
    spawn h args (fs w) = (Exited 0 out, files) /\
    w' = mkWorld files (log w).
Proof.
  unfold subprocess_run. destruct (all_str cmd) as [args|]; [|discriminate].
  destruct (spawn h args (fs w)) as [[rc o|denied] files] eqn:Es.
  - destruct (rc =? 0)%Z eqn:Erc; [|discriminate].
    intros H. inversion H. subst. apply Z.eqb_eq in Erc. subst. eauto.
  - destruct denied; discriminate.
Qed.

(** X11.  On macos, when the bundler has exited with status 0 but the
    identity listing cannot be started, [build] does not return: the error
    of the failed start leaves [sign_app] and [build] uncaught. *)
Theorem build_raises_when_listing_cannot_start
    (h : Host) (self : AppBuilder.t) (w w1 w2 : World)
    (cmd : list value) (out : string) (dist_dir app_name : value)
    (app_path : string) (denied : bool) (files : FS) :
  AppBuilder.platform self = "macos" ->
  AppBuilder.build_command h self w = (Ok cmd, w1) ->
  subprocess_run h cmd w1 = (Ok out, w2) ->
  getitem (BuildConfig.config (AppBuilder.config self)) "dist_dir" = Ok dist_dir ->
  getitem (BuildConfig.config (AppBuilder.config self)) "app_name" = Ok app_name ->
  os_path_join dist_dir (py_str h app_name ++ ".app") = Ok app_path ->
  spawn h security_args (fs w2) = (NotStarted denied, files) ->
  fst (AppBuilder.build h self w) =
  Raise (if denied then PermissionError else FileNotFoundError).
Proof.
  intros Hplat Hcmd Hrun Hdist Happ Hjoin Hsp.
  unfold AppBuilder.build, try_except_CalledProcessError, bind.
  rewrite Hcmd, Hrun. unfold logger at 1.
  unfold AppBuilder.post_build. rewrite Hplat. cbn [String.eqb Ascii.eqb Bool.eqb].
  unfold bind, lift. rewrite Hdist, Happ, Hjoin.
  unfold MacOSBuilder.sign_app, try_except_CalledProcessError, bind.
  unfold MacOSBuilder.get_signing_identity, try_except_CalledProcessError,
    bind, subprocess_run.
  cbn [MacOSBuilder.security_cmd all_str option_map fs log]. fold security_args.
  rewrite Hsp. destruct denied; reflexivity.
Qed.

Lemma build_raises_when_listing_cannot_start_witness :
  fst (AppBuilder.build no_security_host
         (builder_of no_security_host (default_config no_security_host))
         empty_world) =
  Raise FileNotFoundError.
Proof.
  eapply (@build_raises_when_listing_cannot_start no_security_host
            (builder_of no_security_host (default_config no_security_host))
            empty_world empty_world empty_world _ "" (VStr "dist")
            (VStr "YourApp") "dist/YourApp.app" false []).
  - reflexivity.
  - vm_compute. reflexivity.
  - reflexivity.
  - reflexivity.
  - reflexivity.
  - reflexivity.
  - reflexivity.
Defined.

(** X12.  [sign_app] returns true only when the identity was resolved, the
    entitlements file is configured, and both runs of [codesign], the
    signing with that identity and those entitlements and then the
    verification, exited with status 0; the success of the signing is
    logged before the verification. *)
Theorem sign_app_true_means_signed_and_verified
    (h : Host) (app_path : string) (config : Dict.t) (w w' : World) :
  MacOSBuilder.sign_app h app_path config w = (Ok true, w') ->
  exists identity entitlements w1 args out1 files1 out2,
    MacOSBuilder.get_signing_identity h w = (Ok identity, w1) /\
    Dict.get config "entitlements_file" = Some entitlements /\
    all_str [VStr "codesign"; VStr "--force"; VStr "--deep"; VStr "--timestamp";
             VStr "--options"; VStr "runtime"; VStr "--entitlements"; entitlements;
             VStr "-s"; identity; VStr app_path] = Some args /\
    spawn h args (fs w1) = (Exited 0 out1, files1) /\
    spawn h ["codesign"; "--verify"; "--deep"; "--strict"; app_path] files1 =
      (Exited 0 out2, fs w') /\
    log w' = (log w1 ++ [(INFO, "Application signed successfully!")])%list.
Proof.
  unfold MacOSBuilder.sign_app, try_except_CalledProcessError.
  match goal with
  | |- context [match ?b w with _ => _ end] =>
      destruct (b w) as [[r|e] w0] eqn:Ebody
  end.
  2:{ destruct e; discriminate. }
  intros H. inversion H. subst. clear H.
  bind_inv Ebody. rename a into identity, w0 into w1, Hstep into Hid.
  bind_inv Ebody. apply lift_ok in Hstep. destruct Hstep as [Hent ->].
  cbv zeta in Ebody.
  bind_inv Ebody. rename Hstep into Hsign.
  bind_inv Ebody. unfold logger in Hstep. inversion Hstep. subst. clear Hstep.
  bind_inv Ebody. rename Hstep into Hverify.
  apply ret_ok in Ebody. destruct Ebody as [_ ->].
  destruct (subprocess_run_ok _ _ _ Hsign) as (args & files1 & Hall & Hsp1 & ->).
  destruct (subprocess_run_ok _ _ _ Hverify) as (args2 & files2 & Hall2 & Hsp2 & ->).
  cbn [all_str option_map] in Hall2. inversion Hall2. subst args2.
  cbn [fs log] in *.
  unfold getitem in Hent.
  destruct (Dict.get config "entitlements_file") as [ent|] eqn:E; [|discriminate].
  inversion Hent. subst.
  do 7 eexists. repeat split; eauto.
Qed.

Lemma sign_app_true_means_signed_and_verified_witness :
  exists identity entitlements w1 args out1 files1 out2,
    MacOSBuilder.get_signing_identity double_host empty_world = (Ok identity, w1) /\
    Dict.get (default_config double_host) "entitlements_file" = Some entitlements /\
    all_str [VStr "codesign"; VStr "--force"; VStr "--deep"; VStr "--timestamp";
             VStr "--options"; VStr "runtime"; VStr "--entitlements"; entitlements;
             VStr "-s"; identity; VStr "dist/YourApp.app"] = Some args /\
    spawn double_host args (fs w1) = (Exited 0 out1, files1) /\
    spawn double_host ["codesign"; "--verify"; "--deep"; "--strict"; "dist/YourApp.app"]
      files1 =
      (Exited 0 out2,
       fs (snd (MacOSBuilder.sign_app double_host "dist/YourApp.app"
                  (default_config double_host) empty_world))) /\
    log (snd (MacOSBuilder.sign_app double_host "dist/YourApp.app"
                (default_config double_host) empty_world)) =
      (log w1 ++ [(INFO, "Application signed successfully!")])%list.
Proof.
  apply (@sign_app_true_means_signed_and_verified double_host "dist/YourApp.app"
           (default_config double_host) empty_world).
  vm_compute. reflexivity.
Defined.

(** X13.  Without [entitlements_file] in the configuration, [sign_app]
    raises [KeyError], after the identity listing has run: the lookup is
    inside the [try], whose [except] clause lets it pass. *)
Theorem sign_app_needs_entitlements_file
    (h : Host) (app_path : string) (config : Dict.t) (w : World)
    (rc : Z) (out : string) (files : FS) :
  spawn h security_args (fs w) = (Exited rc out, files) ->
  Dict.get config "entitlements_file" = None ->
  exists w',
    MacOSBuilder.sign_app h app_path config w =
      (Raise (KeyError "entitlements_file"), w') /\
    fs w' = files /\
    length (log w') = S (length (log w)).
Proof.
  intros Hsp Hent.
  unfold MacOSBuilder.sign_app, try_except_CalledProcessError, bind.
  unfold MacOSBuilder.get_signing_identity, try_except_CalledProcessError,
    bind, subprocess_run.
  cbn [MacOSBuilder.security_cmd all_str option_map]. fold security_args.
  rewrite Hsp. unfold lift, getitem. rewrite Hent.
  destruct (rc =? 0)%Z.
  - destruct (MacOSBuilder.first_identity _) as [[identity hash_value]|];
      unfold logger, ret; cbn [fs log]; eexists;
      (split; [reflexivity|]); cbn [fs log];
      (split; [reflexivity|]); rewrite length_app; simpl; lia.
  - unfold logger, ret; cbn [fs log]. eexists.
    split; [reflexivity|]. cbn [fs log].
    split; [reflexivity|]. rewrite length_app. simpl. lia.
Qed.

Lemma sign_app_needs_entitlements_file_witness :
  exists w',
    MacOSBuilder.sign_app signing_host "dist/Demo.app"
      [("app_name", VStr "Demo")] empty_world =
      (Raise (KeyError "entitlements_file"), w') /\
    fs w' = [] /\
    length (log w') = S (length (log empty_world)).
Proof.
  apply (@sign_app_needs_entitlements_file signing_host "dist/Demo.app"
           [("app_name", VStr "Demo")] empty_world 0%Z sample_listing []);
    reflexivity.
Defined.

(** ** More on resolving the configuration *)

(** X14.  A well-formed document that is not a mapping makes the
    resolution raise [AttributeError]; a mapping whose [base] section or
    whose section of the platform is present but is not a mapping makes it
    raise [TypeError].  The world is as it was. *)
Theorem resolve_rejects_non_mappings
    (h : Host) (w : World) (path : string) (doc : value) :
  holds_document h w path doc ->
  match doc with
  | VDict d =>
      forall v,
        Dict.get d "base" = Some v \/
        Dict.get d (PlatformConfig.get_platform h) = Some v ->
        (forall s, v <> VDict s) ->
        BuildConfig.init h path w = (Raise TypeError, w)
  | _ => BuildConfig.init h path w = (Raise AttributeError, w)
  end.
Proof.
  intros Hdoc. rewrite (init_document Hdoc).
  destruct doc as [| b | z | f | s | l | d]; try reflexivity.
  intros v Hv Hnot.
  unfold resolve_document, value_get, Dict.get_default, dict_display.
  destruct Hv as [Hv|Hv]; rewrite Hv.
  - destruct (Dict.get d (PlatformConfig.get_platform h)) as [p|].
    + destruct v; try reflexivity. now elim (Hnot d0).
    + destruct v; try reflexivity. now elim (Hnot d0).
  - destruct (Dict.get d "base") as [b|].
    + destruct b; destruct v; try reflexivity; now elim (Hnot d1) || now elim (Hnot d0).
    + destruct v; try reflexivity. now elim (Hnot d0).
Qed.

Lemma resolve_rejects_non_mappings_witness :
  BuildConfig.init (quiet_host "linux") "build_config.json"
    (mkWorld [("build_config.json", File (Json (VList [VStr "base"])))] []) =
  (Raise AttributeError,
   mkWorld [("build_config.json", File (Json (VList [VStr "base"])))] []).
Proof.
  apply (@resolve_rejects_non_mappings (quiet_host "linux")
           (mkWorld [("build_config.json", File (Json (VList [VStr "base"])))] [])
           "build_config.json" (VList [VStr "base"])).
  eexists. split; reflexivity.
Defined.

Lemma dict_keys_set_new (k : string) (v : value) (d : Dict.t) :
  ~ In k (Dict.keys d) -> Dict.keys (Dict.set k v d) = (Dict.keys d ++ [k])%list.
Proof.
  induction d as [|[k' v'] r IH]; simpl; intros Hn; [reflexivity|].
  destruct (String.eqb_spec k' k) as [->|Hne]; [tauto|].
  simpl. f_equal. apply IH. tauto.
Qed.

Lemma dict_wf_set (k : string) (v : value) (d : Dict.t) :
  Dict.wf d -> Dict.wf (Dict.set k v d).
Proof.
  unfold Dict.wf. intros Hd.
  destruct (in_dec string_dec k (Dict.keys d)) as [Hin|Hn].
  - now rewrite dict_keys_set.
  - rewrite dict_keys_set_new by assumption.
    apply NoDup_app; [exact Hd|repeat constructor; simpl; tauto|].
    intros x Hx [<-|[]]. contradiction.
Qed.

Lemma dict_wf_update (e : Dict.t) :
  forall d, Dict.wf d -> Dict.wf (Dict.update d e).
Proof.
  unfold Dict.update.
  induction e as [|[k v] r IH]; simpl; intros d Hd; [exact Hd|].
  apply IH. now apply dict_wf_set.
Qed.

Lemma dict_wf_merge (a b : Dict.t) : Dict.wf (Dict.merge a b).
Proof.
  unfold Dict.merge. apply dict_wf_update, dict_wf_update. constructor.
Qed.

Lemma dict_in_keys_iff (d : Dict.t) (k : string) :
  In k (Dict.keys d) <-> Dict.get d k <> None.
Proof.
  split.
  - intros H. destruct (dict_in_keys_get _ _ H) as [v Hv]. congruence.
  - destruct (Dict.get d k) as [v|] eqn:E; [|congruence].
    intros _. exact (dict_get_some_in _ _ E).
Qed.

(** X15.  On every platform, resolving a document whose [base] section and
    whose section of the platform are mappings (an absent section counts as
    empty) gives a mapping that holds each key once, whose keys are those of
    the two sections and no others, and in which the platform section
    decides the value of every key it has. *)
Theorem resolve_is_overlay_of_two_sections
    (h : Host) (w : World) (path : string) (doc base overlay : Dict.t) :
  holds_document h w path (VDict doc) ->
  Dict.get_default doc "base" (VDict Dict.empty) = VDict base ->
  Dict.get_default doc (PlatformConfig.get_platform h) (VDict Dict.empty) =
    VDict overlay ->
  Dict.wf base ->
  Dict.wf overlay ->
  exists cfg,
    BuildConfig.init h path w =
      (Ok (BuildConfig.mk path (PlatformConfig.get_platform h) cfg), w) /\
    Dict.wf cfg /\
    (forall k, Dict.get cfg k =
               match Dict.get overlay k with
               | Some v => Some v
               | None => Dict.get base k
               end) /\
    (forall k, In k (Dict.keys cfg) <->
               In k (Dict.keys base) \/ In k (Dict.keys overlay)).
Proof.
  intros Hdoc Hb Ho Hwb Hwo.
  exists (Dict.merge base overlay).
  assert (Hget : forall k, Dict.get (Dict.merge base overlay) k =
                           match Dict.get overlay k with
                           | Some v => Some v
                           | None => Dict.get base k
                           end).
  { intros k. now apply dict_get_merge. }
  split; [|split; [apply dict_wf_merge|split; [exact Hget|]]].
  - rewrite (init_document Hdoc).
    unfold resolve_document, value_get. now rewrite Hb, Ho.
  - intros k. rewrite !dict_in_keys_iff, Hget.
    destruct (Dict.get overlay k); destruct (Dict.get base k);
      intuition congruence.
Qed.

Lemma resolve_is_overlay_of_two_sections_witness :
  exists cfg,
    BuildConfig.init (quiet_host "win32") "build_config.json" sample_world =
      (Ok (BuildConfig.mk "build_config.json"
             (PlatformConfig.get_platform (quiet_host "win32")) cfg), sample_world) /\
    Dict.wf cfg /\
    (forall k, Dict.get cfg k =
               match Dict.get [("uac_admin", VBool true)] k with
               | Some v => Some v
               | None => Dict.get [ ("app_name", VStr "Demo"); ("version", VStr "1.2");
                                    ("console", VBool true) ] k
               end) /\
    (forall k, In k (Dict.keys cfg) <->
               In k (Dict.keys [ ("app_name", VStr "Demo"); ("version", VStr "1.2");
                                 ("console", VBool true) ]) \/
               In k (Dict.keys [("uac_admin", VBool true)])).
Proof.
  apply (@resolve_is_overlay_of_two_sections (quiet_host "win32") sample_world
           "build_config.json"
           [ ("base", VDict [ ("app_name", VStr "Demo"); ("version", VStr "1.2");
                              ("console", VBool true) ]);
             ("linux", VDict [ ("console", VBool false);
                               ("categories", VStr "Game;") ]);
             ("windows", VDict [ ("uac_admin", VBool true) ]) ]).
  - exists (Json sample_document). split; reflexivity.
  - reflexivity.
  - reflexivity.
  - unfold Dict.wf. simpl.
    repeat (constructor; [simpl; intuition discriminate|]). constructor.
  - unfold Dict.wf. simpl.
    repeat (constructor; [simpl; intuition discriminate|]). constructor.
Defined.

Lemma dict_set_new (k : string) (v : value) (d : Dict.t) :
  ~ In k (Dict.keys d) -> Dict.set k v d = (d ++ [(k, v)])%list.
Proof.
  induction d as [|[k' v'] r IH]; simpl; intros Hn; [reflexivity|].
  destruct (String.eqb_spec k' k) as [->|Hne]; [tauto|].
  f_equal. apply IH. tauto.
Qed.

(** Updating with entries whose keys are new appends them in their order. *)
Lemma dict_update_fresh (e : Dict.t) :
  forall d, NoDup (Dict.keys d ++ Dict.keys e) -> Dict.update d e = (d ++ e)%list.
Proof.
  unfold Dict.update.
  induction e as [|[k v] r IH]; simpl; intros d Hnd.
  - now rewrite app_nil_r.
  - assert (Hk : ~ In k (Dict.keys d)).
    { apply NoDup_remove_2 in Hnd. intros Hin. apply Hnd.
      apply in_or_app. now left. }
    rewrite dict_set_new by assumption.
    rewrite IH.
    + now rewrite <- app_assoc.
    + unfold Dict.keys in *. rewrite map_app. simpl.
      now rewrite <- app_assoc.
Qed.

Lemma dict_merge_empty_right (a : Dict.t) : Dict.wf a -> Dict.merge a [] = a.
Proof.
  intros Ha. unfold Dict.merge. cbn [Dict.update fold_left].
  change (fold_left (fun acc kv => Dict.set (fst kv) (snd kv) acc) a Dict.empty)
    with (Dict.update Dict.empty a).
  now rewrite dict_update_fresh.
Qed.

Lemma dict_merge_empty_left (b : Dict.t) : Dict.wf b -> Dict.merge [] b = b.
Proof.
  intros Hb. unfold Dict.merge. cbn [Dict.update fold_left Dict.empty].
  change (fold_left (fun acc kv => Dict.set (fst kv) (snd kv) acc) b [])
    with (Dict.update [] b).
  now rewrite dict_update_fresh.
Qed.

(** X16.  When the section of the platform is absent or empty, resolving
    returns the [base] section as it is, its keys in their order; when the
    [base] section is absent or empty, it returns the section of the
    platform as it is. *)
Theorem resolve_with_one_section
    (h : Host) (w : World) (path : string) (doc base overlay : Dict.t) :
  holds_document h w path (VDict doc) ->
  Dict.get_default doc "base" (VDict Dict.empty) = VDict base ->
  Dict.get_default doc (PlatformConfig.get_platform h) (VDict Dict.empty) =
    VDict overlay ->
  Dict.wf base ->
  Dict.wf overlay ->
  (overlay = [] ->
   BuildConfig.init h path w =
   (Ok (BuildConfig.mk path (PlatformConfig.get_platform h) base), w)) /\
  (base = [] ->
   BuildConfig.init h path w =
   (Ok (BuildConfig.mk path (PlatformConfig.get_platform h) overlay), w)).
Proof.
  intros Hdoc Hb Ho Hwb Hwo.
  rewrite (init_document Hdoc).
  unfold resolve_document, value_get. rewrite Hb, Ho. cbn [dict_display].
  split; intros ->.
  - now rewrite dict_merge_empty_right.
  - now rewrite dict_merge_empty_left.
Qed.

Lemma resolve_with_one_section_witness :
  BuildConfig.init (quiet_host "darwin") "build_config.json" sample_world =
  (Ok (BuildConfig.mk "build_config.json"
         (PlatformConfig.get_platform (quiet_host "darwin"))
         [ ("app_name", VStr "Demo"); ("version", VStr "1.2");
           ("console", VBool true) ]), sample_world).
Proof.
  refine (proj1 (@resolve_with_one_section (quiet_host "darwin") sample_world
                   "build_config.json"
                   [ ("base", VDict [ ("app_name", VStr "Demo"); ("version", VStr "1.2");
                                      ("console", VBool true) ]);
                     ("linux", VDict [ ("console", VBool false);
                                       ("categories", VStr "Game;") ]);
                     ("windows", VDict [ ("uac_admin", VBool true) ]) ]
                   _ [] _ _ _ _ _) eq_refl).
  - exists (Json sample_document). split; reflexivity.
  - reflexivity.
  - reflexivity.
  - unfold Dict.wf. simpl.
    repeat (constructor; [simpl; intuition discriminate|]). constructor.
  - constructor.
Defined.

(** X17.  What [save] writes is not read back: a configuration with no key
    [base] and no key named after the platform, once saved, resolves to the
    empty mapping. *)
Theorem saved_flat_configuration_resolves_to_empty
    (h : Host) (self : BuildConfig.t) (w w1 : World) :
  BuildConfig.save self w = (Ok tt, w1) ->
  Dict.get (BuildConfig.config self) "base" = None ->
  Dict.get (BuildConfig.config self) (PlatformConfig.get_platform h) = None ->
  BuildConfig.init h (BuildConfig.config_file self) w1 =
  (Ok (BuildConfig.mk (BuildConfig.config_file self)
         (PlatformConfig.get_platform h) Dict.empty), w1).
Proof.
  intros Hs Hb Hp.
  rewrite init_load.
  now rewrite (@save_then_load_flat h self w w1 (PlatformConfig.get_platform h) Hs Hb Hp).
Qed.

Lemma saved_flat_configuration_resolves_to_empty_witness :
  BuildConfig.init (quiet_host "win32") "cfg.json"
    (mkWorld [("cfg.json", File (Json (VDict [("app_name", VStr "Demo")])))] []) =
  (Ok (BuildConfig.mk "cfg.json" (PlatformConfig.get_platform (quiet_host "win32"))
         Dict.empty),
   mkWorld [("cfg.json", File (Json (VDict [("app_name", VStr "Demo")])))] []).
Proof.
  apply (@saved_flat_configuration_resolves_to_empty (quiet_host "win32")
           (BuildConfig.mk "cfg.json" "windows" [("app_name", VStr "Demo")])
           empty_world); reflexivity.
Defined.

(** ** When the signing returns *)

Lemma subprocess_run_started (h : Host) (cmd : list value) (args : list string) (w : World) :
  programs_start h ->
  all_str cmd = Some args ->
  exists rc out files,
    subprocess_run h cmd w =
    (if (rc =? 0)%Z then Ok out else Raise (CalledProcessError args rc),
     mkWorld files (log w)).
Proof.
  intros Hstart Hall. unfold subprocess_run. rewrite Hall.
  destruct (Hstart args (fs w)) as (rc & out & files & Hsp).
  exists rc, out, files. rewrite Hsp.
  now destruct (rc =? 0)%Z.
Qed.

Lemma get_signing_identity_started (h : Host) (w : World) :
  programs_start h ->
  exists s w', MacOSBuilder.get_signing_identity h w = (Ok (VStr s), w').
Proof.
  intros Hstart.
  destruct (Hstart security_args (fs w)) as (rc & out & files & Hsp).
  unfold MacOSBuilder.get_signing_identity, try_except_CalledProcessError,
    bind, subprocess_run.
  cbn [MacOSBuilder.security_cmd all_str option_map]. fold security_args.
  rewrite Hsp.
  destruct (rc =? 0)%Z.
  - destruct (MacOSBuilder.first_identity _) as [[identity hash_value]|] eqn:Ef.
    + destruct (scanned_identity_is_identifier _ Ef) as (m & -> & _).
      unfold logger, ret. eauto.
    + unfold logger, ret. eauto.
  - unfold logger, ret. eauto.
Qed.

Lemma sign_app_started
    (h : Host) (app_path : string) (config : Dict.t) (w : World) (ent : string) :
  programs_start h ->
  Dict.get config "entitlements_file" = Some (VStr ent) ->
  exists b w', MacOSBuilder.sign_app h app_path config w = (Ok b, w').
Proof.
  intros Hstart Hent.
  unfold MacOSBuilder.sign_app, try_except_CalledProcessError, bind.
  destruct (get_signing_identity_started w Hstart) as (s & w1 & ->).
  unfold lift, getitem. rewrite Hent.
  match goal with
  | |- context [subprocess_run h ?c w1] =>
      destruct (@subprocess_run_started h c _ w1 Hstart eq_refl)
        as (rc1 & out1 & files1 & ->)
  end.
  destruct (rc1 =? 0)%Z; [|unfold logger, ret; eauto].
  unfold logger at 1.
  match goal with
  | |- context [subprocess_run h ?c ?w2] =>
      destruct (@subprocess_run_started h c _ w2 Hstart eq_refl)
        as (rc2 & out2 & files2 & ->)
  end.
  destruct (rc2 =? 0)%Z; unfold logger, ret; eauto.
Qed.


Lemma quiet_host_programs_start (p : string) : programs_start (quiet_host p).
Proof.
  intros args files. exists 0%Z, "", files. reflexivity.
Defined.


(** ** Building with the built-in defaults *)

Lemma build_of_command
    (h : Host) (self : AppBuilder.t) (w w1 : World)
    (cmd : list value) (args : list string) :
  programs_start h ->
  AppBuilder.build_command h self w = (Ok cmd, w1) ->
  all_str cmd = Some args ->
  (forall w2, exists w3, AppBuilder.post_build h self w2 = (Ok tt, w3)) ->
  exists b w', AppBuilder.build h self w = (Ok b, w').
Proof.
  intros Hstart Hcmd Hall Hpost.
  unfold AppBuilder.build, try_except_CalledProcessError, bind.
  rewrite Hcmd.
  destruct (@subprocess_run_started h cmd args w1 Hstart Hall)
    as (rc & out & files & ->).
  destruct (rc =? 0)%Z.
  - unfold logger at 1.
    match goal with
    | |- context [AppBuilder.post_build h self ?w2] =>
        destruct (Hpost w2) as (w3 & ->)
    end.
    unfold ret. eauto.
  - unfold logger, ret. eauto.
Qed.

Lemma create_version_info_ok
    (h : Host) (config : Dict.t) (w : World) (s : string) (a : value) :
  Dict.get config "version" = Some (VStr s) ->
  Dict.get config "company" = None ->
  Dict.get config "app_name" = Some a ->
  fs_lookup (fs w) "version_info.txt" <> Some Directory ->
  exists w1, WindowsBuilder.create_version_info h config w = (Ok "version_info.txt", w1).
Proof.
  intros Hv Hc Ha Hfs.
  unfold WindowsBuilder.create_version_info, WindowsBuilder.version_tuple,
    getitem, Dict.get_default.
  rewrite Hv, Hc, Ha. cbn [WindowsBuilder.split_version value_get].
  repeat (rewrite bind_lift; cbv beta iota zeta).
  unfold bind, write_file, ret.
  destruct (fs_lookup (fs w) "version_info.txt") as [[|c]|]; eauto.
  now elim Hfs.
Qed.

(** X19.  The built-in defaults are a complete configuration on every
    platform: on a host whose programs can all be started, and in a world
    where the paths of the generated files are free, [build] over the
    defaults returns a boolean and raises nothing. *)
Theorem build_with_defaults_returns (h : Host) (w : World) :
  programs_start h ->
  fs_lookup (fs w) "version_info.txt" <> Some Directory ->
  (forall c, fs_lookup (fs w) "build" <> Some (File c)) ->
  fs_lookup (fs w) "build/YourApp.desktop" <> Some Directory ->
  exists b w', AppBuilder.build h (builder_of h (default_config h)) w = (Ok b, w').
Proof.
  intros Hstart Hvi Hbuild Hdesk.
  destruct (sys_platform h =? "win32") eqn:Ewin;
    [|destruct (sys_platform h =? "darwin") eqn:Emac].
  - (* windows *)
    assert (Hc : exists cmd w1 args,
               AppBuilder.build_command h (builder_of h (default_config h)) w = (Ok cmd, w1) /\
               all_str cmd = Some args).
    { unfold builder_of, default_config, AppBuilder.init, BuildConfig._default_config,
        PlatformConfig.get_platform, BuildConfig.base_defaults,
        PlatformConfig.get_icon_extension.
      rewrite Ewin. cbn. unfold bind at 1. unfold bind at 1.
      match goal with
      | |- context [WindowsBuilder.create_version_info h ?c w] =>
          destruct (@create_version_info_ok h c w "1.0.0" (VStr "YourApp")
                      eq_refl eq_refl eq_refl Hvi) as (w1 & ->)
      end.
      cbn. do 3 eexists. split; reflexivity. }
    destruct Hc as (cmd & w1 & args & Hcmd & Hall).
    apply (@build_of_command _ _ _ _ _ _ Hstart Hcmd Hall).
    intros w2. unfold AppBuilder.post_build, builder_of, AppBuilder.init,
      PlatformConfig.get_platform. rewrite Ewin. cbn. unfold ret. eauto.
  - (* macos *)
    assert (Hc : exists cmd w1 args,
               AppBuilder.build_command h (builder_of h (default_config h)) w = (Ok cmd, w1) /\
               all_str cmd = Some args).
    { unfold builder_of, default_config, AppBuilder.init, BuildConfig._default_config,
        PlatformConfig.get_platform, BuildConfig.base_defaults,
        PlatformConfig.get_icon_extension.
      rewrite Ewin, Emac. cbn. do 3 eexists. split; reflexivity. }
    destruct Hc as (cmd & w1 & args & Hcmd & Hall).
    apply (@build_of_command _ _ _ _ _ _ Hstart Hcmd Hall).
    intros w2. unfold AppBuilder.post_build, builder_of, default_config,
      AppBuilder.init, BuildConfig._default_config, PlatformConfig.get_platform,
      BuildConfig.base_defaults, PlatformConfig.get_icon_extension.
    rewrite Ewin, Emac. cbn. unfold bind.
    match goal with
    | |- context [MacOSBuilder.sign_app h ?p ?c w2] =>
        destruct (@sign_app_started h p c w2 "entitlements.plist" Hstart eq_refl)
          as (b & w3 & ->)
    end.
    unfold ret. eauto.
  - (* linux *)
    assert (Hc : exists cmd w1 args,
               AppBuilder.build_command h (builder_of h (default_config h)) w = (Ok cmd, w1) /\
               all_str cmd = Some args).
    { unfold builder_of, default_config, AppBuilder.init, BuildConfig._default_config,
        PlatformConfig.get_platform, BuildConfig.base_defaults,
        PlatformConfig.get_icon_extension.
      rewrite Ewin, Emac. cbn. unfold bind at 1. unfold bind at 1.
      match goal with
      | |- context [LinuxBuilder.create_desktop_file h ?c w] =>
          destruct (@desktop_entry_written h c w "YourApp" "1.0.0" "build"
                      eq_refl eq_refl eq_refl) as (w1 & -> & _);
            [discriminate|reflexivity|reflexivity|exact Hbuild|exact Hdesk|]
      end.
      cbn. do 3 eexists. split; reflexivity. }
    destruct Hc as (cmd & w1 & args & Hcmd & Hall).
    apply (@build_of_command _ _ _ _ _ _ Hstart Hcmd Hall).
    intros w2. unfold AppBuilder.post_build, builder_of, AppBuilder.init,
      PlatformConfig.get_platform. rewrite Ewin, Emac. cbn. unfold ret. eauto.
Qed.

Lemma build_with_defaults_returns_witness :
  exists b w',
    AppBuilder.build (quiet_host "linux")
      (builder_of (quiet_host "linux") (default_config (quiet_host "linux")))
      sample_world = (Ok b, w').
Proof.
  apply (@build_with_defaults_returns (quiet_host "linux") sample_world).
  - apply quiet_host_programs_start.
  - discriminate.
  - discriminate.
  - discriminate.
Defined.

(** ** The result and the command of [build], continued *)

(** X20.  [build] returns true only when the command was assembled, all its
    arguments were strings, and the bundler exited with status 0. *)
Theorem build_true_means_bundler_succeeded
    (h : Host) (self : AppBuilder.t) (w w' : World) :
  AppBuilder.build h self w = (Ok true, w') ->
  exists cmd w1 args out files,
    AppBuilder.build_command h self w = (Ok cmd, w1) /\
    all_str cmd = Some args /\
    spawn h args (fs w1) = (Exited 0 out, files).
Proof.
  unfold AppBuilder.build, try_except_CalledProcessError.
  match goal with
  | |- context [match ?b w with _ => _ end] =>
      destruct (b w) as [[r|e] w0] eqn:Ebody
  end.
  2:{ destruct e; discriminate. }
  intros _.
  apply bind_ok in Ebody. destruct Ebody as (cmd & wc & Hcmd & Ebody).
  apply bind_ok in Ebody. destruct Ebody as (out & wr & Hrun & Ebody).
  destruct (subprocess_run_ok _ _ _ Hrun) as (args & files & Hall & Hsp & _).
  eauto 10.
Qed.

Lemma build_true_means_bundler_succeeded_witness :
  exists cmd w1 args out files,
    AppBuilder.build_command (quiet_host "darwin")
      (builder_of (quiet_host "darwin") (default_config (quiet_host "darwin")))
      empty_world = (Ok cmd, w1) /\
    all_str cmd = Some args /\
    spawn (quiet_host "darwin") args (fs w1) = (Exited 0 out, files).
Proof.
  assert (H : exists w',
             AppBuilder.build (quiet_host "darwin")
               (builder_of (quiet_host "darwin") (default_config (quiet_host "darwin")))
               empty_world = (Ok true, w')).
  { eexists. vm_compute. reflexivity. }
  destruct H as [w' H].
  exact (@build_true_means_bundler_succeeded _ _ _ _ H).
Defined.

(** X21.  The assembled command begins with pyinstaller, the name option
    with the application name, and the two fixed options; it ends with the
    main script; and directly before the main script come the hidden
    imports, one pair per module in the order of the configuration, followed
    by the data pairs. *)
Theorem build_command_shape
    (h : Host) (self : AppBuilder.t) (w w1 : World) (cmd : list value) :
  AppBuilder.build_command h self w = (Ok cmd, w1) ->
  exists app_name hidden imps data items data_args main_script middle,
    Dict.get (BuildConfig.config (AppBuilder.config self)) "app_name" = Some app_name /\
    Dict.get (BuildConfig.config (AppBuilder.config self)) "hidden_imports" = Some hidden /\
    py_iter hidden = Ok imps /\
    Dict.get (BuildConfig.config (AppBuilder.config self)) "additional_data" = Some data /\
    py_iter data = Ok items /\
    mapM (AppBuilder.add_data_args h) items = Ok data_args /\
    Dict.get (BuildConfig.config (AppBuilder.config self)) "main_script" = Some main_script /\
    cmd = ([VStr "pyinstaller"; VStr "--name"; app_name; VStr "--noconfirm"; VStr "--clean"]
           ++ middle
           ++ flat_map (fun imp => [VStr "--hidden-import"; imp]) imps
           ++ concat data_args
           ++ [main_script])%list.
Proof.
  intros H. unfold AppBuilder.build_command, getitem in H.
  bind_inv H. apply lift_ok in Hstep. destruct Hstep as [Happ ->].
  cbv zeta in H.
  bind_inv H. rename Hstep into Hprep.
  bind_inv H. apply lift_ok in Hstep. destruct Hstep as [Hhid ->].
  bind_inv H. apply lift_ok in Hstep. destruct Hstep as [Himps ->].
  bind_inv H. apply lift_ok in Hstep. destruct Hstep as [Hdata ->].
  bind_inv H. apply lift_ok in Hstep. destruct Hstep as [Hitems ->].
  bind_inv H. apply lift_ok in Hstep. destruct Hstep as [Hargs ->].
  bind_inv H. apply lift_ok in Hstep. destruct Hstep as [Hmain ->].
  apply ret_ok in H. destruct H as [-> ->].
  set (cfg := BuildConfig.config (AppBuilder.config self)) in *.
  destruct (Dict.get cfg "app_name") as [app_name|]; [|discriminate].
  destruct (Dict.get cfg "hidden_imports") as [hidden|]; [|discriminate].
  destruct (Dict.get cfg "additional_data") as [data|]; [|discriminate].
  destruct (Dict.get cfg "main_script") as [main_script|]; [|discriminate].
  inversion Happ. inversion Hhid. inversion Hdata. inversion Hmain. subst.
  exists a, a1, a2, a3, a4, a5, a6.
  exists ((if ((AppBuilder.platform self =? "windows") ||
               (AppBuilder.platform self =? "macos")) &&
              negb (truthy (Dict.get_default cfg "console" (VBool false)))
           then [VStr "--windowed"] else []) ++
          match Dict.get cfg "icon_file" with
          | Some icon_file => [VStr "--icon"; icon_file]
          | None => []
          end ++
          a0 ++
          (if AppBuilder.platform self =? "macos" then
             match Dict.get cfg "bundle_identifier" with
             | Some bundle_identifier =>
                 [VStr "--osx-bundle-identifier"; bundle_identifier]
             | None => []
             end
           else []))%list.
  do 7 (split; [reflexivity || assumption|]).
  change (fun imp : value => [VStr "--hidden-import"; imp])
    with AppBuilder.hidden_import_args.
  destruct ((AppBuilder.platform self =? "windows") ||
            (AppBuilder.platform self =? "macos"));
    destruct (negb (truthy (Dict.get_default cfg "console" (VBool false))));
    destruct (AppBuilder.platform self =? "macos");
    destruct (Dict.get cfg "bundle_identifier");
    destruct (Dict.get cfg "icon_file");
    cbn [andb]; repeat rewrite <- app_assoc; cbn [app]; reflexivity.
Qed.

Lemma build_command_shape_witness :
  exists app_name hidden imps data items data_args main_script middle,
    Dict.get [ ("app_name", VStr "Demo");
               ("hidden_imports", VList [VStr "a.b"; VStr "c"]);
               ("additional_data", VList [VList [VStr "src"; VStr "dst"]]);
               ("main_script", VStr "run.py") ] "app_name" = Some app_name /\
    Dict.get [ ("app_name", VStr "Demo");
               ("hidden_imports", VList [VStr "a.b"; VStr "c"]);
               ("additional_data", VList [VList [VStr "src"; VStr "dst"]]);
               ("main_script", VStr "run.py") ] "hidden_imports" = Some hidden /\
    py_iter hidden = Ok imps /\
    Dict.get [ ("app_name", VStr "Demo");
               ("hidden_imports", VList [VStr "a.b"; VStr "c"]);
               ("additional_data", VList [VList [VStr "src"; VStr "dst"]]);
               ("main_script", VStr "run.py") ] "additional_data" = Some data /\
    py_iter data = Ok items /\
    mapM (AppBuilder.add_data_args (quiet_host "darwin")) items = Ok data_args /\
    Dict.get [ ("app_name", VStr "Demo");
               ("hidden_imports", VList [VStr "a.b"; VStr "c"]);
               ("additional_data", VList [VList [VStr "src"; VStr "dst"]]);
               ("main_script", VStr "run.py") ] "main_script" = Some main_script /\
    [VStr "pyinstaller"; VStr "--name"; VStr "Demo"; VStr "--noconfirm";
     VStr "--clean"; VStr "--windowed";
     VStr "--hidden-import"; VStr "a.b"; VStr "--hidden-import"; VStr "c";
     VStr "--add-data"; VStr "src:dst"; VStr "run.py"] =
    ([VStr "pyinstaller"; VStr "--name"; app_name; VStr "--noconfirm"; VStr "--clean"]
     ++ middle
     ++ flat_map (fun imp => [VStr "--hidden-import"; imp]) imps
     ++ concat data_args
     ++ [main_script])%list.
Proof.
  apply (@build_command_shape (quiet_host "darwin")
           (builder_of (quiet_host "darwin")
              [ ("app_name", VStr "Demo");
                ("hidden_imports", VList [VStr "a.b"; VStr "c"]);
                ("additional_data", VList [VList [VStr "src"; VStr "dst"]]);
                ("main_script", VStr "run.py") ])
           empty_world empty_world).
  vm_compute. reflexivity.
Defined.

(** X22.  The arguments prepared for the platform hold the elevation flag
    exactly when the platform is windows and the [uac_admin] value of the
    configuration is true. *)
Theorem uac_admin_flag_only_on_windows
    (h : Host) (self : AppBuilder.t) (w w1 : World) (extra : list value) :
  AppBuilder.prepare_platform_specific h self w = (Ok extra, w1) ->
  (In (VStr "--uac-admin") extra <->
   AppBuilder.platform self = "windows" /\
   truthy (Dict.get_default (BuildConfig.config (AppBuilder.config self))
             "uac_admin" VNone) = true).
Proof.
  unfold AppBuilder.prepare_platform_specific. intros H.
  destruct (negb _) eqn:Eb.
  { apply ret_ok in H. destruct H as [-> _]. split; [intros []|].
    intros [Hp _]. rewrite Hp in Eb. discriminate. }
  destruct (String.eqb_spec (AppBuilder.platform self) "windows") as [Hp|Hp].
  { bind_inv H. apply create_version_info_name in Hstep. subst.
    destruct (truthy _) eqn:Et; apply ret_ok in H; destruct H as [-> _]; simpl.
    - split; auto.
    - split; [intuition discriminate|]. intros [_ Hf]. discriminate. }
  destruct (AppBuilder.platform self =? "linux").
  { bind_inv H. apply ret_ok in H. destruct H as [-> _].
    split; [intros []|]. intros [Hw _]. contradiction. }
  apply ret_ok in H. destruct H as [-> _].
  split; [intros []|]. intros [Hw _]. contradiction.
Qed.

Lemma uac_admin_flag_only_on_windows_witness :
  In (VStr "--uac-admin")
     [VStr "--version-file"; VStr "version_info.txt"; VStr "--uac-admin"] <->
  AppBuilder.platform
    (builder_of (quiet_host "win32")
       [("app_name", VStr "Demo"); ("version", VStr "1.0"); ("uac_admin", VBool true)]) =
    "windows" /\
  truthy (Dict.get_default
            (BuildConfig.config (AppBuilder.config
               (builder_of (quiet_host "win32")
                  [("app_name", VStr "Demo"); ("version", VStr "1.0");
                   ("uac_admin", VBool true)])))
            "uac_admin" VNone) = true.
Proof.
  assert (H : exists w1,
             AppBuilder.prepare_platform_specific (quiet_host "win32")
               (builder_of (quiet_host "win32")
                  [("app_name", VStr "Demo"); ("version", VStr "1.0");
                   ("uac_admin", VBool true)]) empty_world =
             (Ok [VStr "--version-file"; VStr "version_info.txt"; VStr "--uac-admin"], w1)).
  { eexists. vm_compute. reflexivity. }
  destruct H as [w1 H].
  exact (@uac_admin_flag_only_on_windows _ _ _ _ _ H).
Defined.

Lemma mapM_first_error {A B} (f : A -> result B) (pre post : list A) (x : A) (e : exn) :
  (forall y, In y pre -> exists b, f y = Ok b) ->
  f x = Raise e ->
  mapM f (pre ++ x :: post) = Raise e.
Proof.
  intros Hpre Hx. induction pre as [|y pre IH]; simpl.
  - now rewrite Hx.
  - destruct (Hpre y (or_introl eq_refl)) as [b ->].
    rewrite IH; [reflexivity|]. intros z Hz. apply Hpre. now right.
Qed.

(** X23.  An entry of [additional_data] that is a list of another length
    than two, behind entries that are pairs, makes [build] raise
    [ValueError]: the unpacking of the loop fails and no clause catches
    it. *)
Theorem build_rejects_malformed_data_entry
    (h : Host) (self : AppBuilder.t) (w w1 : World)
    (app_name hidden : value) (imps extra pre post : list value) (bad : list value) :
  Dict.get (BuildConfig.config (AppBuilder.config self)) "app_name" = Some app_name ->
  AppBuilder.prepare_platform_specific h self w = (Ok extra, w1) ->
  Dict.get (BuildConfig.config (AppBuilder.config self)) "hidden_imports" = Some hidden ->
  py_iter hidden = Ok imps ->
  Dict.get (BuildConfig.config (AppBuilder.config self)) "additional_data" =
    Some (VList (pre ++ VList bad :: post)) ->
  (forall item, In item pre -> exists src dst, item = VList [src; dst]) ->
  length bad <> 2 ->
  AppBuilder.build h self w = (Raise ValueError, w1).
Proof.
  intros Ha Hprep Hh Hi Hd Hpre Hbad.
  assert (Hm : mapM (AppBuilder.add_data_args h) (pre ++ VList bad :: post) =
               Raise ValueError).
  { apply mapM_first_error.
    - intros item Hin. destruct (Hpre item Hin) as (src & dst & ->).
      eexists. reflexivity.
    - unfold AppBuilder.add_data_args, unpack2. cbn [py_iter].
      destruct bad as [|a [|b [|c r]]]; try reflexivity.
      simpl in Hbad. congruence. }
  unfold AppBuilder.build, try_except_CalledProcessError, bind,
    AppBuilder.build_command, bind, lift, getitem.
  rewrite Ha. cbv zeta. rewrite Hprep, Hh, Hi, Hd. cbn [py_iter].
  now rewrite Hm.
Qed.

Lemma build_rejects_malformed_data_entry_witness :
  AppBuilder.build (quiet_host "darwin")
    (builder_of (quiet_host "darwin")
       [ ("app_name", VStr "Demo"); ("hidden_imports", VList []);
         ("additional_data",
          VList ([VList [VStr "a"; VStr "b"]] ++
                 VList [VStr "only-source"] :: []));
         ("main_script", VStr "run.py") ])
    empty_world =
  (Raise ValueError, empty_world).
Proof.
  apply (@build_rejects_malformed_data_entry (quiet_host "darwin") _ empty_world
           empty_world (VStr "Demo") (VList []) [] []
           [VList [VStr "a"; VStr "b"]] [] [VStr "only-source"]).
  - reflexivity.
  - reflexivity.
  - reflexivity.
  - reflexivity.
  - reflexivity.
  - intros item [<-|[]]. eauto.
  - simpl. lia.
Defined.

(** X24.  The three functions of [PlatformConfig] always agree, and every
    platform they name is known to the tables that are indexed by it: the
    platform is windows with ".exe" and ".ico", macos with no suffix and
    ".icns", or linux with no suffix and ".png"; it has a builder and a
    mapping of defaults. *)
Theorem platform_is_consistent_and_known (h : Host) :
  ((PlatformConfig.get_platform h = "windows" /\
    PlatformConfig.get_executable_extension h = ".exe" /\
    PlatformConfig.get_icon_extension h = ".ico") \/
   (PlatformConfig.get_platform h = "macos" /\
    PlatformConfig.get_executable_extension h = "" /\
    PlatformConfig.get_icon_extension h = ".icns") \/
   (PlatformConfig.get_platform h = "linux" /\
    PlatformConfig.get_executable_extension h = "" /\
    PlatformConfig.get_icon_extension h = ".png")) /\
  In (PlatformConfig.get_platform h) AppBuilder.platform_builders /\
  (exists overlay,
     Dict.get BuildConfig.platform_configs (PlatformConfig.get_platform h) =
       Some (VDict overlay)) /\
  (exists cfg,
     BuildConfig._default_config h (PlatformConfig.get_platform h) = Ok cfg /\
     Dict.get cfg "icon_file" =
       Some (VStr ("icons/app_icon" ++ PlatformConfig.get_icon_extension h))).
Proof.
  unfold PlatformConfig.get_platform, PlatformConfig.get_executable_extension,
    PlatformConfig.get_icon_extension, BuildConfig._default_config,
    BuildConfig.base_defaults, PlatformConfig.get_icon_extension.
  destruct (sys_platform h =? "win32");
    [|destruct (sys_platform h =? "darwin")];
    (split; [tauto|]); (split; [simpl; tauto|]);
    (split; [eexists; reflexivity|]); eexists; split; reflexivity.
Qed.

(** ** The title of the demonstration window *)

Lemma read_names_document (h : Host) (w : World) (doc : value) :
  holds_document h w "build_config.json" doc ->
  TestApp.read_names h w =
  (match TestApp.subscript doc "base" with
   | Raise e => Raise e
   | Ok base =>
       match TestApp.subscript base "app_name" with
       | Raise e => Raise e
       | Ok app_name =>
           match TestApp.subscript base "company" with
           | Raise e => Raise e
           | Ok company_section =>
               match TestApp.subscript company_section "name" with
               | Raise e => Raise e
               | Ok company => Ok (app_name, company)
               end
           end
       end
   end, w).
Proof.
  intros (c & Hfs & Hp).
  unfold TestApp.read_names, json_load, read_file, bind, lift, ret.
  rewrite Hfs, Hp.
  destruct (TestApp.subscript doc "base") as [base|e]; [|reflexivity].
  destruct (TestApp.subscript base "app_name") as [app_name|e]; [|reflexivity].
  destruct (TestApp.subscript base "company") as [cs|e]; [|reflexivity].
  destruct (TestApp.subscript cs "name") as [company|e]; reflexivity.
Qed.

(** X25.  When [build_config.json] is a mapping whose [base] section holds
    an application name and a company section with a name, the window title
    is "<application name> by <company name>". *)
Theorem window_title_from_document
    (h : Host) (w : World) (doc base company : Dict.t) (app_name name : value) :
  holds_document h w "build_config.json" (VDict doc) ->
  Dict.get doc "base" = Some (VDict base) ->
  Dict.get base "app_name" = Some app_name ->
  Dict.get base "company" = Some (VDict company) ->
  Dict.get company "name" = Some name ->
  TestApp.window_title h w = (Ok (py_str h app_name ++ " by " ++ py_str h name), w).
Proof.
  intros Hdoc Hb Ha Hc Hn.
  unfold TestApp.window_title. rewrite (read_names_document Hdoc).
  unfold TestApp.subscript, getitem. rewrite Hb, Ha, Hc, Hn. reflexivity.
Qed.

Lemma window_title_from_document_witness :
  TestApp.window_title (quiet_host "linux")
    (mkWorld [("build_config.json",
               File (Json (VDict
                 [("base", VDict [("app_name", VStr "Demo");
                                  ("company", VDict [("name", VStr "Acme")])])])))] []) =
  (Ok (py_str (quiet_host "linux") (VStr "Demo") ++ " by " ++
       py_str (quiet_host "linux") (VStr "Acme")),
   mkWorld [("build_config.json",
             File (Json (VDict
               [("base", VDict [("app_name", VStr "Demo");
                                ("company", VDict [("name", VStr "Acme")])])])))] []).
Proof.
  apply (@window_title_from_document (quiet_host "linux") _
           [("base", VDict [("app_name", VStr "Demo");
                            ("company", VDict [("name", VStr "Acme")])])]
           [("app_name", VStr "Demo"); ("company", VDict [("name", VStr "Acme")])]
           [("name", VStr "Acme")] (VStr "Demo") (VStr "Acme")).
  - eexists. split; reflexivity.
  - reflexivity.
  - reflexivity.
  - reflexivity.
  - reflexivity.
Defined.

(** X26.  The title is all or nothing: it never fails and never changes the
    world, and it is either made of both names read from the file or the
    fallback "Test App by Test Company"; a name that was read is dropped
    when the other one cannot be read. *)
Theorem window_title_is_all_or_nothing (h : Host) (w : World) :
  exists title,
    TestApp.window_title h w = (Ok title, w) /\
    (title = "Test App by Test Company" \/
     exists doc base company app_name name,
       holds_document h w "build_config.json" (VDict doc) /\
       Dict.get doc "base" = Some (VDict base) /\
       Dict.get base "app_name" = Some app_name /\
       Dict.get base "company" = Some (VDict company) /\
       Dict.get company "name" = Some name /\
       title = py_str h app_name ++ " by " ++ py_str h name).
Proof.
  unfold TestApp.window_title.
  destruct (fs_lookup (fs w) "build_config.json") as [[|c]|] eqn:Hfs.
  - unfold TestApp.read_names, json_load, read_file, bind. rewrite Hfs.
    eexists. split; [reflexivity|]. now left.
  - destruct (parse h c) as [doc|] eqn:Hp.
    + assert (Hdoc : holds_document h w "build_config.json" doc) by (exists c; auto).
      rewrite (read_names_document Hdoc).
      destruct doc as [| b | z | f | s | l | doc];
        try (eexists; split; [reflexivity|]; now left).
      unfold TestApp.subscript at 1. unfold getitem.
      destruct (Dict.get doc "base") as [base|] eqn:Hb;
        [|eexists; split; [reflexivity|]; now left].
      destruct base as [| b | z | f | s | l | base];
        try (eexists; split; [reflexivity|]; now left).
      cbn [TestApp.subscript]. unfold getitem.
      destruct (Dict.get base "app_name") as [app_name|] eqn:Ha;
        [|eexists; split; [reflexivity|]; now left].
      destruct (Dict.get base "company") as [company|] eqn:Hc;
        [|eexists; split; [reflexivity|]; now left].
      destruct company as [| b | z | f | s | l | company];
        try (eexists; split; [reflexivity|]; now left).
      cbn [TestApp.subscript]. unfold getitem.
      destruct (Dict.get company "name") as [name|] eqn:Hn;
        [|eexists; split; [reflexivity|]; now left].
      eexists. split; [reflexivity|]. right.
      exists doc, base, company, app_name, name. auto 10.
    + unfold TestApp.read_names, json_load, read_file, bind, raise.
      rewrite Hfs, Hp. eexists. split; [reflexivity|]. now left.
  - unfold TestApp.read_names, json_load, read_file, bind. rewrite Hfs.
    eexists. split; [reflexivity|]. now left.
Qed.

(** X27.  The file that [save] writes does not name the window: when the
    saved configuration has no key [base], the title read from that file is
    the fallback, whatever application name the configuration holds. *)
Theorem window_title_after_save
    (h : Host) (self : BuildConfig.t) (w w1 : World) :
  BuildConfig.config_file self = "build_config.json" ->
  BuildConfig.save self w = (Ok tt, w1) ->
  Dict.get (BuildConfig.config self) "base" = None ->
  TestApp.window_title h w1 = (Ok "Test App by Test Company", w1).
Proof.
  intros Hpath Hs Hb.
  assert (Hdoc : holds_document h w1 "build_config.json"
                   (VDict (BuildConfig.config self))).
  { unfold BuildConfig.save, json_dump in Hs. rewrite Hpath in Hs.
    destruct (write_file_ok _ _ _ Hs) as [Hfs _].
    exists (Json (VDict (BuildConfig.config self))). split; [|reflexivity].
    rewrite Hfs. apply fs_lookup_cons_same. }
  unfold TestApp.window_title. rewrite (read_names_document Hdoc).
  unfold TestApp.subscript, getitem. rewrite Hb. reflexivity.
Qed.

Lemma window_title_after_save_witness :
  TestApp.window_title (quiet_host "linux")
    (mkWorld [("build_config.json",
               File (Json (VDict (default_config (quiet_host "linux")))))] []) =
  (Ok "Test App by Test Company",
   mkWorld [("build_config.json",
             File (Json (VDict (default_config (quiet_host "linux")))))] []).
Proof.
  apply (@window_title_after_save (quiet_host "linux")
           (BuildConfig.mk "build_config.json" "linux"
              (default_config (quiet_host "linux")))
           empty_world); reflexivity.
Defined.
